(** * online-store-drf: the product and category catalogue API

    A shallow embedding of [store/api/serializers.py] and [store/api/views.py]
    together with the part of the web framework (serializer fields, validation,
    representation, responses) and of the object-relational mapper that the
    two files call.

    Conventions of the embedding.
    - A Python [float] and a [Decimal] are the rational number they denote,
      kept canonical ([Qc]), so that equal numbers are equal terms.
      [Decimal(x)] of a float is exact in Python, and so is it here.
      Not-a-number and the infinities are outside the model.
    - The arithmetic of [Decimal] rounds each result to the 28 significant
      digits of the context: [Decimal_fix].  The pricing check is embedded
      twice: [ProductSerializer_validate] with exact sums, products and
      quotients, and [ProductSerializer_validate_in_context] with the
      context's rounding.  For a discount of fewer than 28 digits the two
      agree wherever the context rounds neither product
      ([validate_in_context_exact]), and the context never makes the check
      reject what exact arithmetic accepts ([validate_in_context_rejects]).
    - A [str] is its UTF-8 encoding; lengths and white space are those of its
      code points ([characters]).
    - A [dict] with string keys is a [gmap string value].
    - Code that raises returns [Raise e]; a view threads the store through a
      state-and-exception monad.
    - Where the framework would coerce a value between types in a way no
      declared field of this program needs, the embedding stops with
      [Unmodelled] rather than approximate: an outcome other than
      [Unmodelled] is the outcome of the code. *)

From Stdlib Require Import QArith Qcanon Qround Qpower ZArith Lqa String Ascii List.
From stdpp Require Import gmap strings list numbers pretty.

Local Open Scope string_scope.
Local Open Scope Z_scope.

(** ** Python values *)

(** The values found in request data, in validated data and in response
    bodies.  [VList] holds the list of messages the framework reports for one
    field. *)
Inductive value :=
| VNone
| VBool (b : bool)
| VInt (n : Z)
| VFloat (x : Qc)
| VStr (s : string)
| VList (l : list string).

Abbreviation dict := (gmap string value).

(** The detail of a [ValidationError]: a list of messages (raised with a
    string) or a dict from field names to messages. *)
Inductive error_detail :=
| Messages (l : list string)
| FieldErrors (d : dict).

Inductive exn :=
| KeyError (key : string)
| AttributeError (attr : string)
| TypeError
| ValueError
| ValidationError (detail : error_detail)
| ObjectDoesNotExist
| MultipleObjectsReturned
| Http404
| Exception (msg : string)
| Unmodelled (what : string).

(** [Unmodelled] is not a Python exception: it marks a place where Python goes
    on and the embedding does not (a coercion between types that no field of
    this program performs, a decimal result outside the exponent range of the
    context).  No theorem below rests on such an outcome. *)

(** ** Results of code that may raise *)

Inductive result (A : Type) :=
| Ok (a : A)
| Raise (e : exn).
Arguments Ok {A} a.
Arguments Raise {A} e.

#[global] Instance result_ret : MRet result := fun _ a => Ok a.
#[global] Instance result_bind : MBind result := fun _ _ f m =>
  match m with
  | Ok a => f a
  | Raise e => Raise e
  end.

(** [d[key]]: subscripting a dict raises [KeyError] on an absent key. *)
Definition getitem (d : dict) (key : string) : result value :=
  match d !! key with
  | Some v => Ok v
  | None => Raise (KeyError key)
  end.

(** [d.get(key, dflt)]. *)
Definition get (d : dict) (key : string) (dflt : value) : value :=
  default dflt (d !! key).

(** ** Decimal numbers *)

(** [Decimal(v)] for the values a validated numeric field holds.  A bool is an
    int in Python and [Decimal(None)] is a [TypeError].  A string would be
    parsed as a numeral and a list as a digit tuple: no declared field of this
    program puts either under a key that is converted, and the embedding
    stops there with [Unmodelled]. *)
Definition Decimal (v : value) : result Qc :=
  match v with
  | VInt n => Ok (Qc_of_Z n)
  | VFloat x => Ok x
  | VBool b => Ok (Qc_of_Z (if b then 1 else 0))
  | VNone => Raise TypeError
  | VStr _ | VList _ => Raise (Unmodelled "Decimal of a string or a sequence")
  end.

(** ** The decimal context *)

(** The arithmetic of [Decimal] rounds every result to the precision of the
    context.  The interpreter's default context has [prec = 28] significant
    digits, rounding [ROUND_HALF_EVEN] and the exponent range [Emin] to
    [Emax]. *)
Definition prec : Z := 28.
Definition Emax : Z := 999999.
Definition Emin : Z := -999999.

(** The number of decimal digits of a positive integer. *)
Fixpoint digits_upto (fuel : nat) (n : Z) : Z :=
  match fuel with
  | O => 0
  | S fuel' => if n <? 10 then 1 else 1 + digits_upto fuel' (n / 10)
  end.

Definition digits (n : Z) : Z := digits_upto (S (Z.to_nat (Z.log2 n))) n.

(** [x.adjusted()] of a positive number: the exponent of its most
    significant digit, that is the [k] with [10^k <= x < 10^(k+1)]. *)
Definition adjusted (x : Q) : Z :=
  let k := digits (Qnum x) - digits (Zpos (Qden x)) in
  if Qle_bool (10 ^ k) x then k else k - 1.

(** The nearest integer, a tie going to the even one. *)
Definition round_half_even (x : Q) : Z :=
  let n := Qfloor x in
  match (x - inject_Z n ?= 1 # 2)%Q with
  | Lt => n
  | Gt => n + 1
  | Eq => if Z.even n then n else n + 1
  end.

(** A positive number rounded to [prec] significant digits: its coefficient
    of [prec] digits, and the coefficient at its exponent. *)
Definition coefficient (x : Q) : Z :=
  round_half_even (x / 10 ^ (adjusted x - prec + 1)).

Definition rounded (x : Q) : Q :=
  inject_Z (coefficient x) * 10 ^ (adjusted x - prec + 1).

(** Whether a positive number and its rounding are normal numbers of the
    context: the adjusted exponent is at least [Emin] before the rounding and
    at most [Emax] after it, when a carry may have added a digit. *)
Definition in_range (x : Q) : bool :=
  (Emin <=? adjusted x)
  && ((if coefficient x =? 10 ^ prec then adjusted x + 1 else adjusted x) <=? Emax).

(** [Decimal._fix]: the exact result of an operation, rounded by the
    context.  Beyond [Emax] the context signals [Overflow], below [Emin] it
    works with subnormal numbers of fewer digits: neither is followed, and
    the embedding stops there. *)
Definition Decimal_fix (x : Qc) : result Qc :=
  match Qnum x with
  | Z0 => Ok x
  | Zpos _ =>
      if in_range x then Ok (Q2Qc (rounded x))
      else Raise (Unmodelled "a result outside the exponent range of the context")
  | Zneg _ =>
      if in_range (- x)%Q then Ok (- Q2Qc (rounded (- x)%Q))%Qc
      else Raise (Unmodelled "a result outside the exponent range of the context")
  end.

(** [x * y], [x - y] and [x / y] of two [Decimal]s (an int operand is
    converted exactly first): the exact result, then the context.  The only
    divisor in this program is the constant 100. *)
Definition Decimal_mul (x y : Qc) : result Qc := Decimal_fix (x * y)%Qc.
Definition Decimal_sub (x y : Qc) : result Qc := Decimal_fix (x - y)%Qc.
Definition Decimal_truediv (x y : Qc) : result Qc := Decimal_fix (x / y)%Qc.

(** ** Date and time *)

Record datetime := {
  year : nat; month : nat; day : nat; hour : nat; minute : nat; second : nat
}.

(** Zero padding to [width] digits, as the numeric directives of [strftime]
    do. *)
Definition zero_pad (width : nat) (n : nat) : string :=
  let s := pretty n in
  String.concat "" (replicate (width - String.length s) "0") +:+ s.

(** [t.strftime(format)] for the directives [%Y %m %d %H %M %S]; any other
    character is copied.  The interpreter hands the format to the C library,
    whose [%Y] prints the year without padding: four digits from the year
    1000 on, fewer before. *)
Fixpoint strftime (t : datetime) (format : string) : string :=
  match format with
  | String "%" (String c rest) =>
      (if Ascii.eqb c "Y" then pretty (year t)
       else if Ascii.eqb c "m" then zero_pad 2 (month t)
       else if Ascii.eqb c "d" then zero_pad 2 (day t)
       else if Ascii.eqb c "H" then zero_pad 2 (hour t)
       else if Ascii.eqb c "M" then zero_pad 2 (minute t)
       else if Ascii.eqb c "S" then zero_pad 2 (second t)
       else String "%" (String c EmptyString))
      +:+ strftime t rest
  | String c rest => String c (strftime t rest)
  | EmptyString => EmptyString
  end.

(** ** Text *)

(** A [str] is a sequence of code points.  A [string] here holds its UTF-8
    encoding; a lone surrogate, which an escape in a JSON string produces, is
    encoded in three bytes like its neighbours.  [characters] decodes: each
    code point with the bytes that encode it.  A byte that does not start a
    well-formed sequence is taken for a character of its own: a [string] with
    such a byte encodes no [str]. *)
Definition continues (c : ascii) : bool :=
  ((128 <=? N_of_ascii c) && (N_of_ascii c <? 192))%N.

(** The payload of a continuation byte. *)
Definition trail (c : ascii) : N := (N_of_ascii c - 128)%N.

(** The number of bytes of the sequence a text starts with. *)
Definition width (s : string) : nat :=
  match s with
  | String c1 (String c2 s2) =>
      let lead := N_of_ascii c1 in
      if ((lead <? 192)%N || negb (continues c2))%bool then 1%nat
      else if (lead <? 224)%N then 2%nat
      else
        match s2 with
        | String c3 s3 =>
            if negb (continues c3) then 1%nat
            else if (lead <? 240)%N then 3%nat
            else
              match s3 with
              | String c4 _ => if continues c4 then 4%nat else 1%nat
              | EmptyString => 1%nat
              end
        | EmptyString => 1%nat
        end
  | _ => 1%nat
  end.

Fixpoint characters (s : string) : list (N * string) :=
  match s with
  | EmptyString => []
  | String c1 s1 =>
      let lead := N_of_ascii c1 in
      match width s, s1 with
      | 2%nat, String c2 s2 =>
          (((lead - 192) * 64 + trail c2)%N, String c1 (String c2 EmptyString))
          :: characters s2
      | 3%nat, String c2 (String c3 s3) =>
          ((((lead - 224) * 64 + trail c2) * 64 + trail c3)%N,
           String c1 (String c2 (String c3 EmptyString)))
          :: characters s3
      | 4%nat, String c2 (String c3 (String c4 s4)) =>
          (((((lead - 240) * 64 + trail c2) * 64 + trail c3) * 64 + trail c4)%N,
           String c1 (String c2 (String c3 (String c4 EmptyString))))
          :: characters s4
      | _, _ => (lead, String c1 EmptyString) :: characters s1
      end
  end.

(** The code points of a text, and [len(s)]. *)
Definition code_points (s : string) : list N := (characters s).*1.
Definition len (s : string) : nat := length (characters s).

(** The text that a sequence of characters encodes. *)
Definition encode (l : list (N * string)) : string :=
  foldr (λ ch rest, ch.2 +:+ rest) "" l.

(** [ch.isspace()]: the white space of Unicode, which is the characters of
    bidirectional type WS, B or S and of category Zs. *)
Definition isspace (ch : N) : bool :=
  (((9 <=? ch) && (ch <=? 13)) || ((28 <=? ch) && (ch <=? 32))
   || (ch =? 133) || (ch =? 160) || (ch =? 5760)
   || ((8192 <=? ch) && (ch <=? 8202)) || (ch =? 8232) || (ch =? 8233)
   || (ch =? 8239) || (ch =? 8287) || (ch =? 12288))%N.

(** [s.lstrip()] on the characters, and [s.strip()]: white space is removed
    at both ends. *)
Fixpoint lstrip (l : list (N * string)) : list (N * string) :=
  match l with
  | ch :: rest => if isspace ch.1 then lstrip rest else l
  | [] => []
  end.

Definition strip (s : string) : string :=
  encode (reverse (lstrip (reverse (lstrip (characters s))))).

(** The surrogate code points, U+D800 to U+DFFF. *)
Definition is_surrogate (ch : N) : bool := ((55296 <=? ch) && (ch <=? 57343))%N.

(** [format(n, 'X')]: hexadecimal digits in upper case. *)
Definition X_digit (n : N) : ascii :=
  default "0"%char (String.get (N.to_nat n) "0123456789ABCDEF").

Fixpoint X_digits (fuel : nat) (n : N) (less : string) : string :=
  match fuel with
  | O => less
  | S fuel' =>
      let digits := String (X_digit (n mod 16)) less in
      if (n <? 16)%N then digits else X_digits fuel' (n / 16) digits
  end.

Definition format_X (n : N) : string := X_digits (S (N.to_nat (N.log2 n))) n "".

(** ** The data model *)

(** Modelled from the spec: [store/models.py] is not among the sources.  The
    spec's data model gives a Category an id and a name, and a Product an id,
    a name, a reference to one Category, price, quantity, discount, available,
    cost_price and the two timestamps.  An instance holds its related
    Category object, as [instance.category] does. *)
Record Category := {
  category_id : Z;
  category_name : string
}.

Record Product := {
  id : Z;
  name : string;
  category : Category;
  price : Qc;
  quantity : Z;
  discount : Z;
  available : bool;
  cost_price : Qc;
  created_at : datetime;
  updated_at : datetime
}.

(** The objects a serializer field reads an attribute from or renders. *)
Inductive object :=
| Prim (v : value)
| Date (t : datetime)
| CategoryObj (c : Category)
| ProductObj (p : Product).

(** [getattr(o, attr)]. *)
Definition getattr (o : object) (attr : string) : result object :=
  match o with
  | ProductObj p =>
      if String.eqb attr "id" then Ok (Prim (VInt (id p)))
      else if String.eqb attr "name" then Ok (Prim (VStr (name p)))
      else if String.eqb attr "category" then Ok (CategoryObj (category p))
      else if String.eqb attr "price" then Ok (Prim (VFloat (price p)))
      else if String.eqb attr "quantity" then Ok (Prim (VInt (quantity p)))
      else if String.eqb attr "discount" then Ok (Prim (VInt (discount p)))
      else if String.eqb attr "available" then Ok (Prim (VBool (available p)))
      else if String.eqb attr "cost_price" then Ok (Prim (VFloat (cost_price p)))
      else if String.eqb attr "created_at" then Ok (Date (created_at p))
      else if String.eqb attr "updated_at" then Ok (Date (updated_at p))
      else Raise (AttributeError attr)
  | CategoryObj c =>
      if String.eqb attr "id" then Ok (Prim (VInt (category_id c)))
      else if String.eqb attr "name" then Ok (Prim (VStr (category_name c)))
      else Raise (AttributeError attr)
  | Prim _ | Date _ => Raise (AttributeError attr)
  end.

(** ** Serializer fields of the framework *)

Inductive field_type :=
| CharField (max_length : option nat)
| FloatField
| IntegerField
| BooleanField
| DateTimeField (format : string)
| SerializerMethodField.

(** A declared field.  [source] is the attribute path the field reads and
    writes ([source_attrs]): the field's own name unless [source=] is given,
    and empty for a method field, which is handed the instance itself.
    [required_arg] is the [required=] keyword when the declaration gives it. *)
Record Field := {
  field_name : string;
  field_kind : field_type;
  source : list string;
  read_only : bool;
  default_arg : option value;
  required_arg : option bool
}.

(** [Field.__init__]: a field is required unless it is read-only or has a
    default, when the keyword does not say. *)
Definition required (f : Field) : bool :=
  match required_arg f with
  | Some b => b
  | None => negb (read_only f) && bool_decide (default_arg f = None)
  end.

(** What validating one field against the request data gives.
    [Unsupported] marks a coercion of the framework that the embedding does
    not follow (a numeral string for a number, the text of a float for a
    string, the spellings of true and false): validation then stops with
    [Unmodelled] instead of guessing. *)
Inductive field_outcome :=
| Validated (v : value)
| Skipped
| Failed (messages : list string)
| Unsupported.

(** The validators of a character field, in the order [CharField.__init__]
    appends them: the length bound when [max_length] is given, then the two
    that prohibit null and surrogate characters.  Each gives the messages
    it reports. *)
Definition MaxLengthValidator (max_length : option nat) (value : string) : list string :=
  match max_length with
  | Some n =>
      if Nat.ltb n (len value)
      then ["Ensure this field has no more than " +:+ pretty n +:+ " characters."]
      else []
  | None => []
  end.

Definition ProhibitNullCharactersValidator (value : string) : list string :=
  if bool_decide (0%N ∈ code_points value)
  then ["Null characters are not allowed."] else [].

Definition ProhibitSurrogateCharactersValidator (value : string) : list string :=
  match filter (λ ch, is_surrogate ch = true) (code_points value) with
  | ch :: _ => ["Surrogate characters are not allowed: U+" +:+ format_X ch +:+ "."]
  | [] => []
  end.

(** The checks of a character field on the text of the value
    ([CharField.run_validation]): the text is trimmed; a blank one is
    refused at once; otherwise [run_validators] runs every validator and
    reports all their messages together. *)
Definition char_field_checks (max_length : option nat) (s : string) : field_outcome :=
  let value := strip s in
  if String.eqb value "" then Failed ["This field may not be blank."]
  else
    match (MaxLengthValidator max_length value
           ++ ProhibitNullCharactersValidator value
           ++ ProhibitSurrogateCharactersValidator value)%list with
    | [] => Validated (VStr value)
    | errors => Failed errors
    end.

(** [to_internal_value] and the validators of each field type, on a value
    that is present and not null.  An int becomes a float exactly up to
    2^53; beyond that [float(n)] rounds, which is not followed. *)
Definition field_to_internal_value (f : Field) (v : value) : field_outcome :=
  match field_kind f, v with
  | _, VNone => Failed ["This field may not be null."]
  | CharField max_length, VStr s => char_field_checks max_length s
  | CharField max_length, VInt n => char_field_checks max_length (pretty n)
  | CharField _, VFloat _ => Unsupported
  | CharField _, (VBool _ | VList _) => Failed ["Not a valid string."]
  | FloatField, VFloat x => Validated (VFloat x)
  | FloatField, VInt n =>
      if Z.leb (Z.abs n) (2 ^ 53) then Validated (VFloat (Qc_of_Z n)) else Unsupported
  | FloatField, VBool b => Validated (VFloat (Qc_of_Z (if b then 1 else 0)))
  | FloatField, VStr _ => Unsupported
  | FloatField, VList _ => Failed ["A valid number is required."]
  | IntegerField, VInt n => Validated (VInt n)
  | IntegerField, (VFloat _ | VStr _) => Unsupported
  | IntegerField, (VBool _ | VList _) => Failed ["A valid integer is required."]
  | BooleanField, VBool b => Validated (VBool b)
  | BooleanField, VInt n =>
      if Z.eqb n 1 then Validated (VBool true)
      else if Z.eqb n 0 then Validated (VBool false)
      else Failed ["Must be a valid boolean."]
  | BooleanField, VFloat x =>
      if bool_decide (x = Qc_of_Z 1) then Validated (VBool true)
      else if bool_decide (x = Qc_of_Z 0) then Validated (VBool false)
      else Failed ["Must be a valid boolean."]
  | BooleanField, (VStr _ | VList _) => Unsupported
  | DateTimeField _, _ => Unsupported
  | SerializerMethodField, _ => Skipped
  end.

(** [Field.run_validation] with [validate_empty_values]: [data] is the
    field's entry in the request data, [None] when the key is absent. *)
Definition field_run_validation (partial : bool) (f : Field) (data : option value)
  : field_outcome :=
  match data with
  | None =>
      if partial then Skipped
      else if required f then Failed ["This field is required."]
      else match default_arg f with
           | Some d => Validated d
           | None => Skipped
           end
  | Some v => field_to_internal_value f v
  end.

(** The key a validated value is stored under ([set_value] with the field's
    [source_attrs]).  Every writable field of this program has a source of
    one attribute, its own name; a dotted source, which would nest dicts, only
    occurs on read-only fields. *)
Definition source_key (f : Field) : string :=
  match source f with
  | [key] => key
  | _ => field_name f
  end.

(** One turn of the loop of [Serializer.to_internal_value], over the
    validated values and the field errors collected so far. *)
Definition to_internal_value_step (partial : bool) (data : dict)
    (acc : result (dict * dict)) (f : Field) : result (dict * dict) :=
  collected ← acc;
  if read_only f then Ok collected
  else
    match field_run_validation partial f (data !! field_name f) with
    | Validated v => Ok (<[source_key f := v]> collected.1, collected.2)
    | Skipped => Ok collected
    | Failed msgs => Ok (collected.1, <[field_name f := VList msgs]> collected.2)
    | Unsupported => Raise (Unmodelled "a coercion of the framework")
    end.

(** [Serializer.to_internal_value]: every writable field in declaration
    order. *)
Definition to_internal_value (partial : bool) (fields : list Field) (data : dict)
  : result (dict * dict) :=
  foldl (to_internal_value_step partial data) (Ok (∅, ∅)) fields.

(** ** Rendering a field *)

(** [str(n)] and [str(b)]. *)
Definition str_int (n : Z) : string := pretty n.
Definition str_bool (b : bool) : string := if b then "True" else "False".

(** [int(x)] of a float truncates towards zero. *)
Definition int_of_float (x : Qc) : Z := Z.quot (Qnum x) (Z.pos (Qden x)).

(** [repr(s)] of a string: quoted, with the quote, the backslash and the
    control characters escaped.  Bytes above 127 are copied. *)
Definition hex_digit (n : nat) : ascii :=
  default "0"%char (String.get n "0123456789abcdef").

Definition repr_char (quote c : ascii) : string :=
  let n := nat_of_ascii c in
  if Ascii.eqb c "\"%char then "\\"
  else if Ascii.eqb c quote then String "\"%char (String c EmptyString)
  else if Nat.eqb n 10 then "\n"
  else if Nat.eqb n 13 then "\r"
  else if Nat.eqb n 9 then "\t"
  else if (Nat.ltb n 32 || Nat.eqb n 127)%bool
  then "\x" +:+ String (hex_digit (n / 16)) (String (hex_digit (n mod 16)) EmptyString)
  else String c EmptyString.

Definition double_quote : ascii := ascii_of_nat 34.
Definition single_quote : ascii := ascii_of_nat 39.

Fixpoint mentions (c : ascii) (s : string) : bool :=
  match s with
  | String c' rest => (Ascii.eqb c c' || mentions c rest)%bool
  | EmptyString => false
  end.

Fixpoint repr_chars (quote : ascii) (s : string) : string :=
  match s with
  | String c rest => repr_char quote c +:+ repr_chars quote rest
  | EmptyString => EmptyString
  end.

Definition repr_str (s : string) : string :=
  let quote :=
    if (mentions single_quote s && negb (mentions double_quote s))%bool
    then double_quote else single_quote in
  String quote (repr_chars quote s +:+ String quote EmptyString).

(** [repr] of an attribute that holds a string or [None]. *)
Definition repr_opt (o : option string) : string :=
  match o with
  | Some s => repr_str s
  | None => "None"
  end.

(** [s.lower()] on ASCII letters. *)
Definition lower_char (c : ascii) : ascii :=
  let n := nat_of_ascii c in
  if (Nat.leb 65 n && Nat.leb n 90)%bool then ascii_of_nat (n + 32) else c.

Fixpoint lower (s : string) : string :=
  match s with
  | String c rest => String (lower_char c) (lower rest)
  | EmptyString => EmptyString
  end.

(** ** Responses *)

Inductive body :=
| One (d : dict)
| Many (l : list dict)
| NoContent.

Record Response := {
  data : body;
  status : Z
}.

Definition HTTP_200_OK : Z := 200.
Definition HTTP_201_CREATED : Z := 201.
Definition HTTP_204_NO_CONTENT : Z := 204.
Definition HTTP_400_BAD_REQUEST : Z := 400.

(** ** The persistent store and the object-relational mapper *)

(** Modelled from the spec: the persistence store is an external
    collaborator that holds the Category and Product collections and assigns
    the identifiers. *)
Record Store := {
  categories : list Category;
  products : list Product;
  next_category_id : Z;
  next_product_id : Z
}.

(** A view runs against the store and may raise.  Writes made before an
    exception stay (the mapper commits each statement). *)
Definition action (A : Type) : Type := Store → result A * Store.

#[global] Instance action_ret : MRet action := fun _ a st => (Ok a, st).
#[global] Instance action_bind : MBind action := fun _ _ f m st =>
  match m st with
  | (Ok a, st') => f a st'
  | (Raise e, st') => (Raise e, st')
  end.

Definition lift {A} (r : result A) : action A := fun st => (r, st).

(** [Model.objects.get(...)] over the rows that match. *)
Definition objects_get {A} (matching : list A) : result A :=
  match matching with
  | [] => Raise ObjectDoesNotExist
  | [row] => Ok row
  | _ => Raise MultipleObjectsReturned
  end.

(** [Category.objects.get(id=v)].  A key that is not an int is outside the
    model (the mapper coerces a numeral string). *)
Definition Category_objects_get_id (v : value) : action Category := fun st =>
  match v with
  | VInt n =>
      (objects_get (filter (λ c, category_id c = n) (categories st)), st)
  | _ => (Raise (Unmodelled "lookup by a key that is not an int"), st)
  end.

(** [Category.objects.get(name=s)]. *)
Definition Category_objects_get_name (s : string) : action Category := fun st =>
  (objects_get (filter (λ c, category_name c = s) (categories st)), st).

(** [Category.objects.create(name=s)]. *)
Definition Category_objects_create (s : string) : action Category := fun st =>
  let c := {| category_id := next_category_id st; category_name := s |} in
  (Ok c, {| categories := categories st ++ [c];
            products := products st;
            next_category_id := next_category_id st + 1;
            next_product_id := next_product_id st |}).

(** [Product.objects.filter(name=s).exists()]. *)
Definition Product_objects_filter_name_exists (s : string) : action bool := fun st =>
  (Ok (bool_decide (Exists (λ p, name p = s) (products st))), st).

(** [Product.objects.create(...)]: the row gets the next identifier and both
    timestamps are set to the current time. *)
Definition Product_objects_create (now : datetime) (name' : string)
    (category' : Category) (price' : Qc) (quantity' discount' : Z)
    (available' : bool) (cost_price' : Qc) : action Product := fun st =>
  let p := {| id := next_product_id st; name := name'; category := category';
              price := price'; quantity := quantity'; discount := discount';
              available := available'; cost_price := cost_price';
              created_at := now; updated_at := now |} in
  (Ok p, {| categories := categories st;
            products := products st ++ [p];
            next_category_id := next_category_id st;
            next_product_id := next_product_id st + 1 |}).

(** [self.get_object()] of a view whose queryset is all Products: the row
    with the primary key of the URL, or [Http404]. *)
Definition Product_get_object (pk : Z) : action Product := fun st =>
  match filter (λ p, id p = pk) (products st) with
  | p :: _ => (Ok p, st)
  | [] => (Raise Http404, st)
  end.

Definition Category_get_object (pk : Z) : action Category := fun st =>
  match filter (λ c, category_id c = pk) (categories st) with
  | c :: _ => (Ok c, st)
  | [] => (Raise Http404, st)
  end.

(** [instance.save()] of a loaded Product: the row with the instance's
    identifier is overwritten and the modification timestamp is set. *)
Definition touch (now : datetime) (p : Product) : Product :=
  {| id := id p; name := name p; category := category p; price := price p;
     quantity := quantity p; discount := discount p; available := available p;
     cost_price := cost_price p; created_at := created_at p; updated_at := now |}.

Definition Product_save (now : datetime) (p : Product) : action Product := fun st =>
  let p' := touch now p in
  (Ok p', {| categories := categories st;
             products := map (λ row, if bool_decide (id row = id p) then p' else row)
                             (products st);
             next_category_id := next_category_id st;
             next_product_id := next_product_id st |}).

(** [instance.delete()]. *)
Definition Product_delete (p : Product) : action unit := fun st =>
  (Ok tt, {| categories := categories st;
             products := filter (λ row, id row ≠ id p) (products st);
             next_category_id := next_category_id st;
             next_product_id := next_product_id st |}).

Definition Category_delete (c : Category) : action unit := fun st =>
  (Ok tt, {| categories := filter (λ row, category_id row ≠ category_id c) (categories st);
             products := products st;
             next_category_id := next_category_id st;
             next_product_id := next_product_id st |}).

(** The typed reading of a validated value where a model field takes it. *)
Definition as_str (v : value) : result string :=
  match v with VStr s => Ok s | _ => Raise (Unmodelled "a value that is not a str") end.
Definition as_int (v : value) : result Z :=
  match v with VInt n => Ok n | _ => Raise (Unmodelled "a value that is not an int") end.
Definition as_float (v : value) : result Qc :=
  match v with VFloat x => Ok x | _ => Raise (Unmodelled "a value that is not a float") end.
Definition as_bool (v : value) : result bool :=
  match v with VBool b => Ok b | _ => Raise (Unmodelled "a value that is not a bool") end.

(** [setattr(instance, attr, v)] on a Product for the keys validated data can
    hold.  The [category] attribute is a relation: assigning anything but a
    Category instance to it is a [ValueError], and the serializers only hand
    over strings. *)
Definition Product_setattr (p : Product) (attr : string) (v : value) : result Product :=
  if String.eqb attr "name" then
    s ← as_str v;
    Ok {| id := id p; name := s; category := category p; price := price p;
          quantity := quantity p; discount := discount p; available := available p;
          cost_price := cost_price p; created_at := created_at p;
          updated_at := updated_at p |}
  else if String.eqb attr "category" then Raise ValueError
  else if String.eqb attr "price" then
    x ← as_float v;
    Ok {| id := id p; name := name p; category := category p; price := x;
          quantity := quantity p; discount := discount p; available := available p;
          cost_price := cost_price p; created_at := created_at p;
          updated_at := updated_at p |}
  else if String.eqb attr "quantity" then
    n ← as_int v;
    Ok {| id := id p; name := name p; category := category p; price := price p;
          quantity := n; discount := discount p; available := available p;
          cost_price := cost_price p; created_at := created_at p;
          updated_at := updated_at p |}
  else if String.eqb attr "discount" then
    n ← as_int v;
    Ok {| id := id p; name := name p; category := category p; price := price p;
          quantity := quantity p; discount := n; available := available p;
          cost_price := cost_price p; created_at := created_at p;
          updated_at := updated_at p |}
  else if String.eqb attr "available" then
    b ← as_bool v;
    Ok {| id := id p; name := name p; category := category p; price := price p;
          quantity := quantity p; discount := discount p; available := b;
          cost_price := cost_price p; created_at := created_at p;
          updated_at := updated_at p |}
  else if String.eqb attr "cost_price" then
    x ← as_float v;
    Ok {| id := id p; name := name p; category := category p; price := price p;
          quantity := quantity p; discount := discount p; available := available p;
          cost_price := x; created_at := created_at p;
          updated_at := updated_at p |}
  else Raise (Unmodelled "an attribute that is no field of the model").

Section Catalog.

(** [config/constants.py] is not among the sources: [LOSS_FACTOR] is the
    configured constant it supplies.  It multiplies a [Decimal], so it is a
    [Decimal] or an int itself. *)
Variable LOSS_FACTOR : Qc.

(** [str(category)]: the [__str__] of the Category model, which is not among
    the sources. *)
Variable Category_str : Category → string.

(** ** Rendering *)

(** [Field.to_representation] on an attribute that is not [None]. *)
Definition field_to_representation (f : Field) (attribute : object) : result value :=
  match field_kind f, attribute with
  | CharField _, Prim (VStr s) => Ok (VStr s)
  | CharField _, Prim (VInt n) => Ok (VStr (str_int n))
  | CharField _, Prim (VBool b) => Ok (VStr (str_bool b))
  | CharField _, CategoryObj c => Ok (VStr (Category_str c))
  | FloatField, Prim (VFloat x) => Ok (VFloat x)
  | FloatField, Prim (VInt n) => Ok (VFloat (Qc_of_Z n))
  | IntegerField, Prim (VInt n) => Ok (VInt n)
  | IntegerField, Prim (VBool b) => Ok (VInt (if b then 1 else 0))
  | IntegerField, Prim (VFloat x) => Ok (VInt (int_of_float x))
  | BooleanField, Prim (VBool b) => Ok (VBool b)
  | BooleanField, Prim (VInt n) => Ok (VBool (negb (Z.eqb n 0)))
  | DateTimeField format, Date t => Ok (VStr (strftime t format))
  | DateTimeField _, Prim (VStr s) => Ok (VStr s)
  | _, _ => Raise (Unmodelled "rendering a value of another type")
  end.

(** [Field.get_attribute]: the instance's attribute along the source path. *)
Fixpoint get_attribute (instance : object) (source_attrs : list string) : result object :=
  match source_attrs with
  | [] => Ok instance
  | attr :: rest => o ← getattr instance attr; get_attribute o rest
  end.

(** A serializer class: its declared fields, its [get_<field>] methods, its
    [validate] hook and its [to_representation], which receives the
    inherited one as [super]. *)
Record Serializer := {
  fields : list Field;
  method : string → option (object → result value);
  validate : dict → result dict;
  to_representation_override : (object → result dict) → object → result dict
}.

(** One readable field of [Serializer.to_representation]: [None] when the
    field is skipped.  A method field is handed the instance.  Any other
    field reads its attribute; when the instance lacks it, a field that is
    not required (a read-only one, or one with a default) is skipped. *)
Definition represent_field (s : Serializer) (instance : object) (f : Field)
  : result (option value) :=
  match field_kind f with
  | SerializerMethodField =>
      match method s ("get_" +:+ field_name f) with
      | Some m => v ← m instance; Ok (Some v)
      | None => Raise (AttributeError ("get_" +:+ field_name f))
      end
  | _ =>
      match get_attribute instance (source f) with
      | Ok (Prim VNone) => Ok (Some VNone)
      | Ok attribute => v ← field_to_representation f attribute; Ok (Some v)
      | Raise (AttributeError attr) =>
          if required f then Raise (AttributeError attr) else Ok None
      | Raise e => Raise e
      end
  end.

(** [Serializer.to_representation] of the framework: one entry per declared
    field that is not skipped, keyed by the field's name. *)
Definition Serializer_to_representation (s : Serializer) (instance : object) : result dict :=
  foldl (λ acc f, ret ← acc; v ← represent_field s instance f;
                  Ok (match v with
                      | Some v => <[field_name f := v]> ret
                      | None => ret
                      end))
        (Ok ∅) (fields s).

Definition to_representation (s : Serializer) (instance : object) : result dict :=
  to_representation_override s (Serializer_to_representation s) instance.

(** [Serializer(instance).data]. *)
Definition serializer_data := to_representation.

(** The outcome of [serializer.is_valid()]: [validated_data] or [errors]. *)
Inductive validation :=
| Valid (validated_data : dict)
| Invalid (errors : dict).

(** [Serializer.run_validation] under [is_valid]: the fields, then
    [validate]; a [ValidationError] raised with a message is reported under
    [non_field_errors]; any other exception propagates. *)
Definition is_valid (s : Serializer) (partial : bool) (data : dict) : result validation :=
  '(value, errors) ← to_internal_value partial (fields s) data;
  if bool_decide (errors = ∅) then
    match validate s value with
    | Ok value' => Ok (Valid value')
    | Raise (ValidationError (Messages msgs)) =>
        Ok (Invalid {[ "non_field_errors" := VList msgs ]})
    | Raise (ValidationError (FieldErrors d)) => Ok (Invalid d)
    | Raise e => Raise e
    end
  else Ok (Invalid errors).

(** [validated_data.items()]: the validated entries in the order the fields
    are declared. *)
Definition items (s : Serializer) (validated_data : dict) : list (string * value) :=
  omap (λ f, if read_only f then None
             else (λ v, (source_key f, v)) <$> validated_data !! source_key f)
       (fields s).

(** A declaration with the framework's defaults for the keywords it does not
    give. *)
Definition declare (field_name : string) (kind : field_type) : Field :=
  {| field_name := field_name; field_kind := kind; source := [field_name];
     read_only := false; default_arg := None; required_arg := None |}.

Definition with_read_only (f : Field) : Field :=
  {| field_name := field_name f; field_kind := field_kind f; source := source f;
     read_only := true; default_arg := default_arg f; required_arg := required_arg f |}.

Definition with_source (attrs : list string) (f : Field) : Field :=
  {| field_name := field_name f; field_kind := field_kind f; source := attrs;
     read_only := read_only f; default_arg := default_arg f; required_arg := required_arg f |}.

Definition with_default (d : value) (f : Field) : Field :=
  {| field_name := field_name f; field_kind := field_kind f; source := source f;
     read_only := read_only f; default_arg := Some d; required_arg := required_arg f |}.

(** [required=False], for a field declared without a default. *)
Definition optional (f : Field) : Field :=
  {| field_name := field_name f; field_kind := field_kind f; source := source f;
     read_only := read_only f; default_arg := None; required_arg := Some false |}.

(** A method field reads the whole instance ([source='*']). *)
Definition method_field (field_name : string) : Field :=
  with_read_only (with_source [] (declare field_name SerializerMethodField)).

(** ** store/api/mixins.py *)

(** The number an attribute holds, for arithmetic. *)
Definition number (o : object) : result Qc :=
  match o with
  | Prim (VFloat x) => Ok x
  | Prim (VInt n) => Ok (Qc_of_Z n)
  | _ => Raise TypeError
  end.

(** Modelled from the spec: [DiscountPriceMixin.get_discounted_price], whose
    file [store/api/mixins.py] is not among the sources.  The spec: the
    discounted price is price × (1 − discount/100), computed at read time. *)
Definition get_discounted_price (obj : object) : result value :=
  price ← getattr obj "price" ≫= number;
  discount ← getattr obj "discount" ≫= number;
  Ok (VFloat (price * (1 - discount / Qc_of_Z 100))%Qc).

(** Modelled from the spec: [DiscountPriceMixin.remove_discount_fields], of
    the same missing file.  The spec: the raw discount field is removed from
    the externally visible shape for listing and retrieval views. *)
Definition remove_discount_fields (data : dict) : dict :=
  delete "discount" data.

Definition DiscountPriceMixin_method (name : string) : option (object → result value) :=
  if String.eqb name "get_discounted_price" then Some get_discounted_price else None.

(** ** store/api/serializers.py *)

Definition no_validate (attrs : dict) : result dict := Ok attrs.
Definition no_method (name : string) : option (object → result value) := None.
Definition inherited (super : object → result dict) : object → result dict := super.

(** [to_representation] of the two customer-facing serializers:
    [data = super().to_representation(instance)], then
    [self.remove_discount_fields(data)]. *)
Definition projected (super : object → result dict) (instance : object) : result dict :=
  data ← super instance;
  Ok (remove_discount_fields data).

Definition timestamp_format : string := "%Y-%m-%d %H:%M".

(** Serializer for listing products. *)
Definition ProductSearchSerializer : Serializer :=
  {| fields :=
       [ with_read_only (declare "name" (CharField None));
         with_read_only (declare "price" FloatField);
         method_field "discounted_price" ];
     method := DiscountPriceMixin_method;
     validate := no_validate;
     to_representation_override := projected |}.

(** Serializer for retrieving a product. *)
Definition ProductDetailSerializer : Serializer :=
  {| fields :=
       [ with_read_only (declare "name" (CharField None));
         with_read_only (with_source ["category"; "name"] (declare "category" (CharField None)));
         with_read_only (declare "price" FloatField);
         method_field "discounted_price";
         with_read_only (declare "discount" IntegerField);
         with_read_only (declare "quantity" IntegerField);
         with_read_only (declare "created_at" (DateTimeField timestamp_format));
         with_read_only (declare "updated_at" (DateTimeField timestamp_format)) ];
     method := DiscountPriceMixin_method;
     validate := no_validate;
     to_representation_override := projected |}.

Definition ProductSerializer_fields : list Field :=
  [ with_read_only (declare "id" IntegerField);
    declare "name" (CharField (Some 50%nat));
    declare "category" (CharField (Some 25%nat));
    declare "price" FloatField;
    declare "quantity" IntegerField;
    with_default (VInt 0) (declare "discount" IntegerField);
    with_default (VBool true) (declare "available" BooleanField);
    declare "cost_price" FloatField;
    with_read_only (declare "created_at" (DateTimeField timestamp_format));
    with_read_only (declare "updated_at" (DateTimeField timestamp_format)) ].

Definition pricing_message : string :=
  "Product price after applying discount cannot be lower than the cost price.".

(** [ProductSerializer.validate]: validates the product price after applying
    a discount to ensure it does not fall below its cost price.  The
    arithmetic here is exact; what the rounding of the decimal context
    changes is the matter of [ProductSerializer_validate_in_context]
    below. *)
Definition ProductSerializer_validate (attrs : dict) : result dict :=
  cost_price ← Decimal (get attrs "cost_price" (VInt 0));
  price ← Decimal (get attrs "price" (VInt 0));
  discount ← Decimal (get attrs "discount" (VInt 0));
  (* Calculate the minimum acceptable price after discount *)
  let min_acceptable_price := (cost_price * LOSS_FACTOR)%Qc in
  let discounted_price := (price * (1 - discount / Qc_of_Z 100))%Qc in
  (* Check if the discounted price falls below the cost price *)
  if bool_decide (discounted_price < min_acceptable_price)%Qc
  then Raise (ValidationError (Messages [pricing_message]))
  else Ok attrs.

(** [ProductSerializer.validate] again, with the arithmetic as the
    interpreter performs it: the quotient, the difference and each product
    are rounded by the decimal context before the comparison, which is
    exact.  [ProductSerializer_validate] above is this method in a context
    that never rounds. *)
Definition ProductSerializer_validate_in_context (attrs : dict) : result dict :=
  cost_price ← Decimal (get attrs "cost_price" (VInt 0));
  price ← Decimal (get attrs "price" (VInt 0));
  discount ← Decimal (get attrs "discount" (VInt 0));
  (* Calculate the minimum acceptable price after discount *)
  min_acceptable_price ← Decimal_mul cost_price LOSS_FACTOR;
  percentage ← Decimal_truediv discount (Qc_of_Z 100);
  share ← Decimal_sub 1%Qc percentage;
  discounted_price ← Decimal_mul price share;
  (* Check if the discounted price falls below the cost price *)
  if bool_decide (discounted_price < min_acceptable_price)%Qc
  then Raise (ValidationError (Messages [pricing_message]))
  else Ok attrs.

(** Serializer for handling CRUD operations on Product objects. *)
Definition ProductSerializer : Serializer :=
  {| fields := ProductSerializer_fields;
     method := no_method;
     validate := ProductSerializer_validate;
     to_representation_override := inherited |}.

(** Modelled from the spec: the triple an update results in.
    [ProductPartialUpdateSerializer], which the views import, is not defined
    in [serializers.py].  The spec: an update re-applies the Pricing Rule
    against the resulting price, discount and cost_price triple, using the
    existing values for the fields a partial update does not supply. *)
Definition resulting_triple (instance : Product) (attrs : dict) : dict :=
  {[ "cost_price" := get attrs "cost_price" (VFloat (cost_price instance));
     "price" := get attrs "price" (VFloat (price instance));
     "discount" := get attrs "discount" (VInt (discount instance)) ]}.

(** Modelled from the spec: [ProductPartialUpdateSerializer.validate], the
    Pricing Rule on the resulting triple.  [instance] is the product the
    serializer is bound to ([self.instance]); a serializer bound to none has
    only the supplied values to check.  Like the rule itself, it hands back
    the validated input. *)
Definition ProductPartialUpdateSerializer_validate (instance : option Product)
    (attrs : dict) : result dict :=
  match instance with
  | Some existing =>
      _ ← ProductSerializer_validate (resulting_triple existing attrs);
      Ok attrs
  | None => ProductSerializer_validate attrs
  end.

(** Modelled from the spec: [ProductPartialUpdateSerializer].  The spec: the
    partial schema has all the fields of the full one, each optional except
    the identity, which stays read-only. *)
Definition ProductPartialUpdateSerializer (instance : option Product) : Serializer :=
  {| fields :=
       map (λ f, if read_only f then f else optional f) ProductSerializer_fields;
     method := no_method;
     validate := ProductPartialUpdateSerializer_validate instance;
     to_representation_override := inherited |}.

(** Serializer for handling Create, Read, and Delete operations on Category
    objects. *)
Definition CategorySerializer : Serializer :=
  {| fields :=
       [ with_read_only (declare "id" IntegerField);
         declare "name" (CharField (Some 100%nat)) ];
     method := no_method;
     validate := no_validate;
     to_representation_override := inherited |}.

(** ** store/api/views.py *)

(** The serializer classes by name, so that a selection can be compared. *)
Inductive serializer_class :=
| ProductSearchSerializer_cls
| ProductDetailSerializer_cls
| ProductSerializer_cls
| ProductPartialUpdateSerializer_cls
| CategorySerializer_cls.

#[global] Instance serializer_class_eq_dec : EqDecision serializer_class.
Proof. solve_decision. Defined.

Definition class_of (c : serializer_class) : Serializer :=
  match c with
  | ProductSearchSerializer_cls => ProductSearchSerializer
  | ProductDetailSerializer_cls => ProductDetailSerializer
  | ProductSerializer_cls => ProductSerializer
  | ProductPartialUpdateSerializer_cls => ProductPartialUpdateSerializer None
  | CategorySerializer_cls => CategorySerializer
  end.

(** [self.get_serializer(instance, data=..., partial=...)]: the selected
    class, bound to the instance. *)
Definition get_serializer (c : serializer_class) (instance : Product) : Serializer :=
  match c with
  | ProductPartialUpdateSerializer_cls => ProductPartialUpdateSerializer (Some instance)
  | _ => class_of c
  end.

(** [ProductSearchViewSet.get_serializer_class]: select serializer based on
    the action.  [self.action] is a string, or [None] for a method the view
    set does not route. *)
Definition ProductSearchViewSet_get_serializer_class (self_action : option string)
  : result serializer_class :=
  let action_serializers_dict : gmap string serializer_class :=
    {[ "list" := ProductSearchSerializer_cls;
       "retrieve" := ProductDetailSerializer_cls ]} in
  match self_action ≫= (action_serializers_dict !!.) with
  | Some serializer => Ok serializer
  | None =>
      Raise (Exception ("Serializer for self.action=" +:+ repr_opt self_action
                        +:+ " is not exist"))
  end.

(** [ProductDetailUpdateAPIView.get_serializer_class]. *)
Definition ProductDetailUpdateAPIView_get_serializer_class (request_method : string)
  : result serializer_class :=
  let method := lower request_method in
  let action_serializers_dict : gmap string serializer_class :=
    {[ "put" := ProductSerializer_cls;
       "patch" := ProductPartialUpdateSerializer_cls;
       "get" := ProductSerializer_cls ]} in
  match action_serializers_dict !! method with
  | Some serializer_class => Ok serializer_class
  | None =>
      Raise (Exception ("Serializer for method=" +:+ repr_str method
                        +:+ " does not exist."))
  end.

Definition message (text : string) : body := One {[ "message" := VStr text ]}.

(** [ProductSearchViewSet.retrieve] and [list]: the framework's read-only
    actions with the selected serializer.  [queryset] is what the filter
    backend leaves of the products. *)
Definition ProductSearchViewSet_retrieve (pk : Z) : action Response :=
  instance ← Product_get_object pk;
  cls ← lift (ProductSearchViewSet_get_serializer_class (Some "retrieve"));
  d ← lift (serializer_data (class_of cls) (ProductObj instance));
  mret {| data := One d; status := HTTP_200_OK |}.

Definition ProductSearchViewSet_list (queryset : list Product) : action Response :=
  cls ← lift (ProductSearchViewSet_get_serializer_class (Some "list"));
  l ← lift (mapM (λ p, serializer_data (class_of cls) (ProductObj p)) queryset);
  mret {| data := Many l; status := HTTP_200_OK |}.

(** [try: body  except ObjectDoesNotExist: ...]: [None] when the body raised
    [ObjectDoesNotExist]; any other exception propagates. *)
Definition except_ObjectDoesNotExist {A} (body : action A) : action (option A) := fun st =>
  match body st with
  | (Ok a, st') => (Ok (Some a), st')
  | (Raise ObjectDoesNotExist, st') => (Ok None, st')
  | (Raise e, st') => (Raise e, st')
  end.

(** [ProductCreateAPIView.post]: a view for creating a new product. *)
Definition ProductCreateAPIView_post (now : datetime) (request_data : dict)
  : action Response :=
  serializer ← lift (is_valid ProductSerializer false request_data);
  (* Check data validity *)
  match serializer with
  | Invalid errors => mret {| data := One errors; status := HTTP_400_BAD_REQUEST |}
  | Valid validated_data =>
      (* Check the existence of the specified category *)
      found ← except_ObjectDoesNotExist
                (key ← lift (getitem validated_data "category_id");
                 Category_objects_get_id key);
      match found with
      | None =>
          mret {| data := message "This category doesn't exist.";
                  status := HTTP_400_BAD_REQUEST |}
      | Some category =>
          (* Check the existence of a product with the specified name *)
          name_key ← lift (getitem validated_data "name" ≫= as_str);
          taken ← Product_objects_filter_name_exists name_key;
          if (taken : bool) then
            mret {| data := message "A product with the same name already exists.";
                    status := HTTP_400_BAD_REQUEST |}
          else
            name' ← lift (getitem validated_data "name" ≫= as_str);
            price' ← lift (getitem validated_data "price" ≫= as_float);
            quantity' ← lift (getitem validated_data "quantity" ≫= as_int);
            discount' ← lift (getitem validated_data "discount" ≫= as_int);
            available' ← lift (getitem validated_data "available" ≫= as_bool);
            cost_price' ← lift (getitem validated_data "cost_price" ≫= as_float);
            product ← Product_objects_create now name' category price' quantity'
                        discount' available' cost_price';
            d ← lift (serializer_data ProductSerializer (ProductObj product));
            mret {| data := One d; status := HTTP_201_CREATED |}
      end
  end.

(** [for attr, value in serializer.validated_data.items():
        setattr(instance, attr, value)]. *)
Fixpoint setattrs (instance : Product) (entries : list (string * value)) : result Product :=
  match entries with
  | [] => Ok instance
  | (attr, v) :: rest => instance' ← Product_setattr instance attr v; setattrs instance' rest
  end.

(** [ProductDetailUpdateAPIView.update_product]. *)
Definition update_product (now : datetime) (request_method : string) (pk : Z)
    (request_data : dict) (partial : bool) : action Response :=
  instance ← Product_get_object pk;
  cls ← lift (ProductDetailUpdateAPIView_get_serializer_class request_method);
  serializer ← lift (is_valid (get_serializer cls instance) partial request_data);
  match serializer with
  | Invalid errors => mret {| data := One errors; status := HTTP_400_BAD_REQUEST |}
  | Valid validated_data =>
      instance' ← lift (setattrs instance
                          (items (get_serializer cls instance) validated_data));
      saved ← Product_save now instance';
      d ← lift (serializer_data ProductSerializer (ProductObj saved));
      mret {| data := One d; status := HTTP_200_OK |}
  end.

(** [ProductDetailUpdateAPIView.put] and [patch]. *)
Definition ProductDetailUpdateAPIView_put (now : datetime) (pk : Z) (request_data : dict)
  : action Response :=
  update_product now "PUT" pk request_data false.

Definition ProductDetailUpdateAPIView_patch (now : datetime) (pk : Z) (request_data : dict)
  : action Response :=
  update_product now "PATCH" pk request_data true.

(** [ProductDetailUpdateAPIView.get]: the framework's [retrieve]. *)
Definition ProductDetailUpdateAPIView_get (pk : Z) : action Response :=
  instance ← Product_get_object pk;
  cls ← lift (ProductDetailUpdateAPIView_get_serializer_class "GET");
  d ← lift (serializer_data (class_of cls) (ProductObj instance));
  mret {| data := One d; status := HTTP_200_OK |}.

(** [ProductDetailUpdateAPIView.delete]: the framework's [destroy]. *)
Definition ProductDetailUpdateAPIView_delete (pk : Z) : action Response :=
  instance ← Product_get_object pk;
  _ ← Product_delete instance;
  mret {| data := NoContent; status := HTTP_204_NO_CONTENT |}.

(** [CategoryCreateAPIView.post]: a view for creating a new category. *)
Definition CategoryCreateAPIView_post (request_data : dict) : action Response :=
  serializer ← lift (is_valid CategorySerializer false request_data);
  match serializer with
  | Invalid errors => mret {| data := One errors; status := HTTP_400_BAD_REQUEST |}
  | Valid validated_data =>
      category_name' ← lift (getitem validated_data "name" ≫= as_str);
      found ← except_ObjectDoesNotExist (Category_objects_get_name category_name');
      match found with
      | Some _ =>
          mret {| data := message "A category with the same name already exists.";
                  status := HTTP_400_BAD_REQUEST |}
      | None =>
          category ← Category_objects_create category_name';
          d ← lift (serializer_data CategorySerializer (CategoryObj category));
          mret {| data := One d; status := HTTP_201_CREATED |}
      end
  end.

(** [CategoryDetailAPIView.get] and [delete]. *)
Definition CategoryDetailAPIView_get (pk : Z) : action Response :=
  instance ← Category_get_object pk;
  d ← lift (serializer_data CategorySerializer (CategoryObj instance));
  mret {| data := One d; status := HTTP_200_OK |}.

Definition CategoryDetailAPIView_delete (pk : Z) : action Response :=
  instance ← Category_get_object pk;
  _ ← Category_delete instance;
  mret {| data := NoContent; status := HTTP_204_NO_CONTENT |}.

(** [CategorySearchAPIView.list]. *)
Definition CategorySearchAPIView_list : action Response := fun st =>
  (l ← lift (mapM (λ c, serializer_data CategorySerializer (CategoryObj c))
                  (categories st));
   mret {| data := Many l; status := HTTP_200_OK |}) st.

End Catalog.

(** * Vocabulary of the statements and example data *)

Local Open Scope Qc_scope.

(** The discounted price and the floor the pricing rule compares. *)
Definition discounted (price : Qc) (discount : Z) : Qc :=
  price * (1 - Qc_of_Z discount / Qc_of_Z 100).

Definition floor_price (LOSS_FACTOR cost_price : Qc) : Qc :=
  cost_price * LOSS_FACTOR.

(** Validated input that holds exactly a pricing triple. *)
Definition triple (cost_price price : Qc) (discount : Z) : dict :=
  {[ "cost_price" := VFloat cost_price;
     "price" := VFloat price;
     "discount" := VInt discount ]}.

Definition pricing_error : exn := ValidationError (Messages [pricing_message]).

(** The configured constant of the spec's example. *)
Definition LOSS_FACTOR_example : Qc := Q2Qc (8 # 10).

(** A triple on which the rounding of the context shows: the float nearest
    to 10^30, which is 10^30 + 19884624838656, as cost_price, price 1, and a
    negative discount of 32 digits.  The floor is
    800000000000000015907699870924.8 and the discounted price is
    800000000000000015907699870924.79, one hundredth below it. *)
Definition far_cost_price : Qc := Qc_of_Z 1000000000000000019884624838656.
Definition far_discount : Z := -80000000000000001590769987092379.


(** The spec's example product, in a store with one category, and requests
    against that store. *)
Definition kitchen : Category := {| category_id := 1; category_name := "Kitchen" |}.

Definition mug : Product :=
  {| id := 1; name := "Mug"; category := kitchen;
     price := Qc_of_Z 10; quantity := 3; discount := 50; available := true;
     cost_price := Qc_of_Z 4;
     created_at := {| year := 2024; month := 3; day := 7;
                      hour := 9; minute := 5; second := 0 |};
     updated_at := {| year := 2024; month := 3; day := 7;
                      hour := 9; minute := 5; second := 0 |} |}.

Definition shop : Store :=
  {| categories := [kitchen]; products := [mug];
     next_category_id := 2; next_product_id := 2 |}.

Definition noon : datetime :=
  {| year := 2024; month := 6; day := 1; hour := 12; minute := 0; second := 0 |}.

(** A well-formed request for a new product in the existing category. *)
Definition cup_request : dict :=
  {[ "name" := VStr "Cup"; "category" := VStr "Kitchen"; "category_id" := VInt 1;
     "price" := VFloat (Qc_of_Z 100); "quantity" := VInt 1;
     "cost_price" := VFloat (Qc_of_Z 100) ]}.

(** The same request under a name with an accent, with white space around
    it: a space before, a no-break space and a space after. *)
Definition cafe_request : dict := <["name" := VStr " Café  "]> cup_request.

(** The same request under the name of the stored product. *)
Definition second_mug_request : dict := <["name" := VStr "Mug"]> cup_request.

(** The same request for a category that does not exist. *)
Definition orphan_request : dict :=
  <["category" := VStr "Garden"]> (<["category_id" := VInt 999]> cup_request).

(** [str(data)] for the data a character field accepts. *)
Definition text_of (v : value) : option string :=
  match v with
  | VStr s => Some s
  | VInt n => Some (str_int n)
  | _ => None
  end.

(** What a character field with [max_length = bound] lets through: the text
    of the supplied value with the white space at both ends removed; it is
    not blank, has at most [bound] characters, and none of them is null or a
    surrogate. *)
Definition trimmed_text (bound : nat) (supplied : option value) (text : string) : Prop :=
  ∃ s, (supplied ≫= text_of) = Some s
       ∧ text = strip s
       ∧ text ≠ ""
       ∧ (len text ≤ bound)%nat
       ∧ (0%N ∉ code_points text)
       ∧ Forall (λ ch, is_surrogate ch = false) (code_points text).


Local Close Scope Qc_scope.

(** * Properties *)

(** ** The decimal context *)

(** *** Digits and the adjusted exponent *)

Lemma digits_upto_spec (fuel : nat) :
  ∀ n, 0 < n < 2 ^ Z.of_nat fuel →
    10 ^ (digits_upto fuel n - 1) ≤ n < 10 ^ digits_upto fuel n
    ∧ 0 < digits_upto fuel n.
Proof.
  induction fuel as [|fuel IH]; intros n Hn.
  - simpl in Hn. lia.
  - cbn [digits_upto]. destruct (Z.ltb_spec n 10) as [Hsmall|Hbig].
    + simpl. lia.
    + assert (Hq : 0 < n / 10 < 2 ^ Z.of_nat fuel).
      { split; [apply Z.div_str_pos; lia|].
        rewrite Nat2Z.inj_succ, Z.pow_succ_r in Hn by lia.
        apply Z.div_lt_upper_bound; lia. }
      destruct (IH _ Hq) as [[Hlo Hhi] Hpos].
      replace (1 + digits_upto fuel (n / 10) - 1)
        with (Z.succ (digits_upto fuel (n / 10) - 1)) by lia.
      replace (1 + digits_upto fuel (n / 10))
        with (Z.succ (digits_upto fuel (n / 10))) by lia.
      rewrite !Z.pow_succ_r by lia.
      pose proof (Z.mul_div_le n 10 ltac:(lia)).
      pose proof (Z.mul_succ_div_gt n 10 ltac:(lia)).
      lia.
Qed.

Lemma digits_spec (n : Z) :
  0 < n → 10 ^ (digits n - 1) ≤ n < 10 ^ digits n ∧ 0 < digits n.
Proof.
  intros Hn. apply digits_upto_spec. split; [exact Hn|].
  rewrite Nat2Z.inj_succ, Z2Nat.id by apply Z.log2_nonneg.
  apply Z.log2_spec. exact Hn.
Qed.

Lemma ten_pow_pos (k : Z) : (0 < 10 ^ k)%Q.
Proof. apply Qpower_0_lt. reflexivity. Qed.

Lemma ten_pow_Z (n : Z) : 0 ≤ n → (inject_Z (10 ^ n) == 10 ^ n)%Q.
Proof. intros Hn. by rewrite Zpower_Qpower. Qed.

Lemma ten_pow_add (n m : Z) : (10 ^ (n + m) == 10 ^ n * 10 ^ m)%Q.
Proof. apply Qpower_plus. discriminate. Qed.

Lemma ten_pow_le (n m : Z) : n ≤ m → (10 ^ n <= 10 ^ m)%Q.
Proof. intros Hnm. apply Qpower_le_compat_l; [exact Hnm|discriminate]. Qed.

Lemma ten_pow_lt_inv (n m : Z) : (10 ^ n < 10 ^ m)%Q → n < m.
Proof. intros Hnm. eapply Qpower_lt_compat_l_inv; [exact Hnm|reflexivity]. Qed.

(** The decimal digits of a positive integer bracket it between powers of
    ten, as rationals. *)
Lemma digits_bracket (n : Z) :
  0 < n → (10 ^ (digits n - 1) <= inject_Z n)%Q ∧ (inject_Z n < 10 ^ digits n)%Q.
Proof.
  intros Hn. destruct (digits_spec n Hn) as [[Hlo Hhi] Hpos].
  rewrite <- !ten_pow_Z by lia. rewrite <- Zle_Qle, <- Zlt_Qlt. done.
Qed.

Lemma adjusted_spec (x : Q) :
  (0 < x)%Q → (10 ^ adjusted x <= x)%Q ∧ (x < 10 ^ (adjusted x + 1))%Q.
Proof.
  intros Hx. destruct x as [a b].
  assert (Ha : 0 < a) by (unfold Qlt in Hx; simpl in Hx; lia).
  destruct (digits_bracket a Ha) as [Halo Hahi].
  destruct (digits_bracket (Z.pos b) ltac:(lia)) as [Hblo Hbhi].
  assert (Hb : (0 < inject_Z (Z.pos b))%Q) by reflexivity.
  unfold adjusted. cbn [Qnum Qden].
  set (k := digits a - digits (Z.pos b)).
  assert (Hupper : (a # b < 10 ^ (k + 1))%Q).
  { rewrite (Qmake_Qdiv a b). apply Qlt_shift_div_r; [exact Hb|].
    eapply Qlt_le_trans; [exact Hahi|].
    replace (digits a) with ((k + 1) + (digits (Z.pos b) - 1)) by (unfold k; lia).
    rewrite ten_pow_add. apply Qmult_le_l; [apply ten_pow_pos|exact Hblo]. }
  assert (Hlower : (10 ^ (k - 1) <= a # b)%Q).
  { rewrite (Qmake_Qdiv a b). apply Qle_shift_div_l; [exact Hb|].
    eapply Qle_trans; [|exact Halo].
    replace (digits a - 1) with ((k - 1) + digits (Z.pos b)) by (unfold k; lia).
    rewrite ten_pow_add. apply Qmult_le_l; [apply ten_pow_pos|].
    apply Qlt_le_weak. exact Hbhi. }
  destruct (Qle_bool (10 ^ k) (a # b)) eqn:Hle.
  - apply Qle_bool_iff in Hle. split; assumption.
  - replace (k - 1 + 1) with k by lia. split; [exact Hlower|].
    apply Qnot_le_lt. intros Hge. apply Qle_bool_iff in Hge. congruence.
Qed.

Lemma adjusted_unique (x : Q) (k : Z) :
  (10 ^ k <= x)%Q → (x < 10 ^ (k + 1))%Q → adjusted x = k.
Proof.
  intros Hlo Hhi.
  assert (Hx : (0 < x)%Q) by (eapply Qlt_le_trans; [apply (ten_pow_pos k)|exact Hlo]).
  destruct (adjusted_spec x Hx) as [Hlo' Hhi'].
  assert (adjusted x < k + 1).
  { apply ten_pow_lt_inv. eapply Qle_lt_trans; eassumption. }
  assert (k < adjusted x + 1).
  { apply ten_pow_lt_inv. eapply Qle_lt_trans; eassumption. }
  lia.
Qed.

Lemma adjusted_mono (x y : Q) : (0 < x)%Q → (x <= y)%Q → adjusted x ≤ adjusted y.
Proof.
  intros Hx Hxy.
  assert (Hy : (0 < y)%Q) by (eapply Qlt_le_trans; eassumption).
  destruct (adjusted_spec x Hx) as [Hlo _].
  destruct (adjusted_spec y Hy) as [_ Hhi].
  assert (adjusted x < adjusted y + 1); [|lia].
  apply ten_pow_lt_inv. eapply Qle_lt_trans; [exact Hlo|].
  eapply Qle_lt_trans; eassumption.
Qed.


(** *** The nearest integer, ties to even *)

#[global] Instance round_half_even_proper : Proper (Qeq ==> eq) round_half_even.
Proof.
  intros x y Hxy. unfold round_half_even.
  rewrite (Qfloor_comp _ _ Hxy).
  assert (Heq : (x - inject_Z (Qfloor y) ?= 1 # 2)%Q
                = (y - inject_Z (Qfloor y) ?= 1 # 2)%Q).
  { apply Qcompare_comp; [|reflexivity]. by rewrite Hxy. }
  by rewrite Heq.
Qed.

Lemma round_half_even_Z (n : Z) : round_half_even (inject_Z n) = n.
Proof.
  unfold round_half_even. rewrite Qfloor_Z.
  assert (Heq : (inject_Z n - inject_Z n ?= 1 # 2)%Q = Lt).
  { apply Qlt_alt. ring_simplify (inject_Z n - inject_Z n)%Q. reflexivity. }
  by rewrite Heq.
Qed.

Lemma round_half_even_floor (x : Q) :
  Qfloor x ≤ round_half_even x ≤ Qfloor x + 1.
Proof.
  unfold round_half_even.
  destruct (x - inject_Z (Qfloor x) ?= 1 # 2)%Q; [destruct (Z.even _)|..]; lia.
Qed.

Lemma round_half_even_mono (x y : Q) :
  (x <= y)%Q → round_half_even x ≤ round_half_even y.
Proof.
  intros Hxy. pose proof (Qfloor_resp_le _ _ Hxy) as Hfloor.
  pose proof (round_half_even_floor x) as Hx.
  pose proof (round_half_even_floor y) as Hy.
  destruct (decide (Qfloor x = Qfloor y)) as [Heq|Hne]; [|lia].
  unfold round_half_even. rewrite <- Heq.
  destruct (x - inject_Z (Qfloor x) ?= 1 # 2)%Q eqn:Hcx;
    destruct (y - inject_Z (Qfloor x) ?= 1 # 2)%Q eqn:Hcy;
    try (destruct (Z.even (Qfloor x))); try lia;
    repeat match goal with
    | H : (_ ?= _)%Q = Eq |- _ => apply Qeq_alt in H
    | H : (_ ?= _)%Q = Lt |- _ => apply Qlt_alt in H
    | H : (_ ?= _)%Q = Gt |- _ => apply Qgt_alt in H
    end; lra.
Qed.

(** *** Rounding to the precision *)

Lemma scaled_bounds (x : Q) :
  (0 < x)%Q →
  (10 ^ (prec - 1) <= x / 10 ^ (adjusted x - prec + 1))%Q
  ∧ (x / 10 ^ (adjusted x - prec + 1) < 10 ^ prec)%Q.
Proof.
  intros Hx. destruct (adjusted_spec x Hx) as [Hlo Hhi].
  set (e := adjusted x - prec + 1). split.
  - apply Qle_shift_div_l; [apply ten_pow_pos|].
    rewrite <- ten_pow_add. by replace (prec - 1 + e) with (adjusted x) by (unfold e; lia).
  - apply Qlt_shift_div_r; [apply ten_pow_pos|].
    rewrite <- ten_pow_add. by replace (prec + e) with (adjusted x + 1) by (unfold e; lia).
Qed.

Lemma coefficient_bounds (x : Q) :
  (0 < x)%Q → 10 ^ (prec - 1) ≤ coefficient x ≤ 10 ^ prec.
Proof.
  intros Hx. destruct (scaled_bounds x Hx) as [Hlo Hhi]. unfold coefficient. split.
  - rewrite <- (round_half_even_Z (10 ^ (prec - 1))).
    apply round_half_even_mono. by rewrite ten_pow_Z.
  - rewrite <- (round_half_even_Z (10 ^ prec)).
    apply round_half_even_mono. rewrite ten_pow_Z by done. by apply Qlt_le_weak.
Qed.

Lemma rounded_bounds (x : Q) :
  (0 < x)%Q →
  (10 ^ adjusted x <= rounded x)%Q ∧ (rounded x <= 10 ^ (adjusted x + 1))%Q.
Proof.
  intros Hx. destruct (coefficient_bounds x Hx) as [Hlo Hhi]. unfold rounded.
  set (e := adjusted x - prec + 1). split.
  - replace (adjusted x) with (prec - 1 + e) at 1 by (unfold e; lia).
    rewrite ten_pow_add. apply Qmult_le_compat_r; [|apply Qlt_le_weak, ten_pow_pos].
    rewrite <- ten_pow_Z by done. by rewrite <- Zle_Qle.
  - replace (adjusted x + 1) with (prec + e) by (unfold e; lia).
    rewrite ten_pow_add. apply Qmult_le_compat_r; [|apply Qlt_le_weak, ten_pow_pos].
    rewrite <- ten_pow_Z by done. by rewrite <- Zle_Qle.
Qed.

Lemma rounded_pos (x : Q) : (0 < x)%Q → (0 < rounded x)%Q.
Proof.
  intros Hx. eapply Qlt_le_trans; [apply (ten_pow_pos (adjusted x))|].
  by apply rounded_bounds.
Qed.

Lemma rounded_mono (x y : Q) :
  (0 < x)%Q → (x <= y)%Q → (rounded x <= rounded y)%Q.
Proof.
  intros Hx Hxy.
  assert (Hy : (0 < y)%Q) by (eapply Qlt_le_trans; eassumption).
  pose proof (adjusted_mono x y Hx Hxy) as Hk.
  destruct (decide (adjusted x = adjusted y)) as [Heq|Hne].
  - unfold rounded, coefficient. rewrite Heq.
    apply Qmult_le_compat_r; [|apply Qlt_le_weak, ten_pow_pos].
    rewrite <- Zle_Qle. apply round_half_even_mono.
    apply Qmult_le_compat_r; [exact Hxy|].
    apply Qlt_le_weak, Qinv_lt_0_compat, ten_pow_pos.
  - eapply Qle_trans; [apply (rounded_bounds x Hx)|].
    eapply Qle_trans; [|apply (rounded_bounds y Hy)].
    apply ten_pow_le. lia.
Qed.


(** A number of at most [prec] digits is its own rounding. *)
Lemma rounded_exact (x : Q) (m j : Z) :
  0 < m < 10 ^ prec → (x == inject_Z m * 10 ^ j)%Q →
  (rounded x == x)%Q ∧ coefficient x < 10 ^ prec ∧ j ≤ adjusted x < prec + j.
Proof.
  intros [Hm Hmhi] Hxm.
  assert (Hx : (0 < x)%Q).
  { rewrite Hxm. apply Qmult_lt_0_compat; [|apply ten_pow_pos].
    by rewrite <- (Zlt_Qlt 0). }
  destruct (adjusted_spec x Hx) as [Hlo Hhi].
  assert (Hk : adjusted x < prec + j).
  { apply ten_pow_lt_inv. eapply Qle_lt_trans; [exact Hlo|].
    rewrite Hxm, ten_pow_add. apply Qmult_lt_compat_r; [apply ten_pow_pos|].
    rewrite <- ten_pow_Z by done. by rewrite <- Zlt_Qlt. }
  assert (Hj : j ≤ adjusted x).
  { assert (j < adjusted x + 1); [|lia].
    apply ten_pow_lt_inv. eapply Qle_lt_trans; [|exact Hhi].
    rewrite Hxm. rewrite <- (Qmult_1_l (10 ^ j)) at 1.
    apply Qmult_le_compat_r; [|apply Qlt_le_weak, ten_pow_pos].
    rewrite <- (Zle_Qle 1). lia. }
  set (e := adjusted x - prec + 1) in *.
  assert (Hscaled : (x / 10 ^ e == inject_Z (m * 10 ^ (j - e)))%Q).
  { rewrite Hxm, inject_Z_mult, ten_pow_Z by (unfold e; lia).
    replace j with ((j - e) + e) at 1 by lia. rewrite ten_pow_add.
    field. apply Qpower_not_0. discriminate. }
  assert (Hcoeff : coefficient x = m * 10 ^ (j - e)).
  { unfold coefficient. fold e. rewrite Hscaled. apply round_half_even_Z. }
  split; [|split; [|lia]].
  - unfold rounded. fold e. rewrite Hcoeff, <- Hscaled. field.
    apply Qpower_not_0. discriminate.
  - rewrite Hcoeff. destruct (scaled_bounds x Hx) as [_ Hshi]. fold e in Hshi.
    rewrite Hscaled, <- ten_pow_Z in Hshi by done. by rewrite <- Zlt_Qlt in Hshi.
Qed.

(** *** What the context does to a result *)

Lemma Qnum_zero (x : Q) : Qnum x = 0 → (x == 0)%Q.
Proof. destruct x as [a b]. simpl. intros ->. reflexivity. Qed.

Lemma Qnum_positive (x : Q) (p : positive) : Qnum x = Z.pos p → (0 < x)%Q.
Proof. destruct x as [a b]. simpl. intros ->. reflexivity. Qed.

Lemma Qnum_negative (x : Q) (p : positive) : Qnum x = Z.neg p → (0 < - x)%Q.
Proof. destruct x as [a b]. simpl. intros ->. reflexivity. Qed.

Lemma Q2Qc_eq (q : Q) : (Q2Qc q == q)%Q.
Proof. apply Qred_correct. Qed.

Lemma Qc_opp_eq (x : Qc) : ((- x)%Qc == - x)%Q.
Proof. apply Qred_correct. Qed.

(** What [Decimal_fix] returns, by the sign of its argument. *)
Lemma Decimal_fix_inv (x a : Qc) :
  Decimal_fix x = Ok a →
  ((x == 0)%Q ∧ a = x)
  ∨ ((0 < x)%Q ∧ (a == rounded x)%Q)
  ∨ ((0 < - x)%Q ∧ (a == - rounded (- x))%Q).
Proof.
  unfold Decimal_fix. destruct (Qnum x) as [|p|p] eqn:Hnum.
  - intros [= <-]. left. split; [by apply Qnum_zero|reflexivity].
  - destruct (in_range x); [|discriminate]. intros [= <-]. right. left.
    split; [by eapply Qnum_positive|apply Q2Qc_eq].
  - destruct (in_range (- x)%Q); [|discriminate]. intros [= <-]. right. right.
    split; [by eapply Qnum_negative|].
    rewrite Qc_opp_eq, Q2Qc_eq. reflexivity.
Qed.

(** The only way [Decimal_fix] stops is outside the exponent range. *)
Lemma Decimal_fix_raises (x : Qc) (e : exn) :
  Decimal_fix x = Raise e →
  e = Unmodelled "a result outside the exponent range of the context".
Proof.
  unfold Decimal_fix. destruct (Qnum x); [discriminate| |].
  - destruct (in_range x); [discriminate|]. by intros [= <-].
  - destruct (in_range (- x)%Q); [discriminate|]. by intros [= <-].
Qed.

(** Rounding keeps the order. *)
Lemma Decimal_fix_mono (x y a b : Qc) :
  Decimal_fix x = Ok a → Decimal_fix y = Ok b → (x ≤ y)%Qc → (a ≤ b)%Qc.
Proof.
  intros Hx Hy Hxy. unfold Qcle in *.
  destruct (Decimal_fix_inv _ _ Hx) as [[Hx0 ->]|[[Hxs Ha]|[Hxs Ha]]];
    destruct (Decimal_fix_inv _ _ Hy) as [[Hy0 ->]|[[Hys Hb]|[Hys Hb]]];
    rewrite ?Ha, ?Hb; try lra.
  - pose proof (rounded_pos y Hys). lra.
  - by apply rounded_mono.
  - pose proof (rounded_pos (- x)%Q Hxs). lra.
  - pose proof (rounded_pos (- x)%Q Hxs). pose proof (rounded_pos y Hys). lra.
  - assert (rounded (- y) <= rounded (- x))%Q; [|lra].
    apply rounded_mono; lra.
Qed.

(** A number of at most [prec] digits, with its exponent in range, is not
    rounded. *)
Lemma Decimal_fix_exact (x : Qc) (m j : Z) :
  Z.abs m < 10 ^ prec → Emin ≤ j → prec + j ≤ Emax + 1 →
  (x == inject_Z m * 10 ^ j)%Q →
  Decimal_fix x = Ok x.
Proof.
  intros Hm Hjlo Hjhi Hxm. unfold Decimal_fix.
  destruct (Qnum x) as [|p|p] eqn:Hnum; [reflexivity| |].
  - assert (Hx : (0 < x)%Q) by (by eapply Qnum_positive).
    assert (Hmpos : 0 < m).
    { destruct (Z.lt_trichotomy m 0) as [Hneg|[->|Hpos]]; [| |exact Hpos].
      - assert (inject_Z m * 10 ^ j < 0)%Q; [|lra].
        rewrite <- (Qmult_0_l (10 ^ j)). apply Qmult_lt_compat_r; [apply ten_pow_pos|].
        unfold Qlt; simpl; lia.
      - rewrite Qmult_0_l in Hxm. lra. }
    destruct (rounded_exact x m j ltac:(lia) Hxm) as (Hexact & Hcoeff & Hadj).
    unfold in_range. rewrite (proj2 (Z.eqb_neq _ _)) by lia.
    rewrite (proj2 (Z.leb_le _ _)) by lia. rewrite (proj2 (Z.leb_le _ _)) by lia.
    simpl. f_equal. apply Qc_is_canon. by rewrite Q2Qc_eq.
  - assert (Hx : (0 < - x)%Q) by (by eapply Qnum_negative).
    assert (Hxm' : (- x == inject_Z (- m) * 10 ^ j)%Q).
    { rewrite Hxm, inject_Z_opp. ring. }
    assert (Hmpos : 0 < - m).
    { destruct (Z.lt_trichotomy (- m) 0) as [Hneg|[Hz|Hpos]]; [| |exact Hpos].
      - assert (inject_Z (- m) * 10 ^ j < 0)%Q; [|lra].
        rewrite <- (Qmult_0_l (10 ^ j)). apply Qmult_lt_compat_r; [apply ten_pow_pos|].
        unfold Qlt; simpl; lia.
      - rewrite Hz, Qmult_0_l in Hxm'. lra. }
    destruct (rounded_exact (- x)%Q (- m) j ltac:(lia) Hxm') as (Hexact & Hcoeff & Hadj).
    unfold in_range. rewrite (proj2 (Z.eqb_neq _ _)) by lia.
    rewrite (proj2 (Z.leb_le _ _)) by lia. rewrite (proj2 (Z.leb_le _ _)) by lia.
    simpl. f_equal. apply Qc_is_canon. rewrite Qc_opp_eq, Q2Qc_eq, Hexact. ring.
Qed.

Local Open Scope Qc_scope.

(** ** The pricing rule *)

Section PricingRule.

Variable LOSS_FACTOR : Qc.

(** [validate] on input whose three entries convert: the check alone. *)
Lemma validate_unfold (attrs : dict) (c p d : Qc) :
  Decimal (get attrs "cost_price" (VInt 0)) = Ok c →
  Decimal (get attrs "price" (VInt 0)) = Ok p →
  Decimal (get attrs "discount" (VInt 0)) = Ok d →
  ProductSerializer_validate LOSS_FACTOR attrs =
    if bool_decide (p * (1 - d / Qc_of_Z 100) < c * LOSS_FACTOR)
    then Raise pricing_error else Ok attrs.
Proof.
  intros Hc Hp Hd. unfold ProductSerializer_validate.
  rewrite Hc, Hp, Hd. reflexivity.
Qed.

Lemma validate_supplied (attrs : dict) (c p : Qc) (d : Z) :
  attrs !! "cost_price" = Some (VFloat c) →
  attrs !! "price" = Some (VFloat p) →
  attrs !! "discount" = Some (VInt d) →
  ProductSerializer_validate LOSS_FACTOR attrs =
    if bool_decide (discounted p d < floor_price LOSS_FACTOR c)
    then Raise pricing_error else Ok attrs.
Proof.
  intros Hc Hp Hd. apply validate_unfold; unfold get.
  - rewrite Hc. reflexivity.
  - rewrite Hp. reflexivity.
  - rewrite Hd. reflexivity.
Qed.

Lemma validate_fails_iff (attrs : dict) (c p : Qc) (d : Z) :
  attrs !! "cost_price" = Some (VFloat c) →
  attrs !! "price" = Some (VFloat p) →
  attrs !! "discount" = Some (VInt d) →
  ProductSerializer_validate LOSS_FACTOR attrs = Raise pricing_error
  ↔ discounted p d < floor_price LOSS_FACTOR c.
Proof.
  intros Hc Hp Hd. rewrite (validate_supplied attrs c p d) by assumption.
  case_bool_decide as Hlt; split; intros H; try assumption; try reflexivity.
  - discriminate H.
  - contradiction.
Qed.

Lemma validate_passes_iff (attrs : dict) (c p : Qc) (d : Z) :
  attrs !! "cost_price" = Some (VFloat c) →
  attrs !! "price" = Some (VFloat p) →
  attrs !! "discount" = Some (VInt d) →
  ProductSerializer_validate LOSS_FACTOR attrs = Ok attrs
  ↔ floor_price LOSS_FACTOR c ≤ discounted p d.
Proof.
  intros Hc Hp Hd. rewrite (validate_supplied attrs c p d) by assumption.
  rewrite Qcle_ngt.
  case_bool_decide as Hlt; split; intros H; try assumption; try reflexivity.
  - discriminate H.
  - contradiction.
Qed.

(** [validate] never alters its input: it hands back [attrs] or raises. *)
Lemma validate_returns_input (attrs value : dict) :
  ProductSerializer_validate LOSS_FACTOR attrs = Ok value → value = attrs.
Proof.
  unfold ProductSerializer_validate.
  destruct (Decimal (get attrs "cost_price" (VInt 0))) as [c|e]; [|discriminate].
  destruct (Decimal (get attrs "price" (VInt 0))) as [p|e]; [|discriminate].
  destruct (Decimal (get attrs "discount" (VInt 0))) as [d|e]; [|discriminate].
  simpl. case_bool_decide; [discriminate|]. intros [= <-]. reflexivity.
Qed.

End PricingRule.

Lemma triple_lookup (c p : Qc) (d : Z) :
  triple c p d !! "cost_price" = Some (VFloat c)
  ∧ triple c p d !! "price" = Some (VFloat p)
  ∧ triple c p d !! "discount" = Some (VInt d).
Proof. unfold triple. repeat split; by simplify_map_eq. Qed.

(** The spec's example, with cost_price 100 and LOSS_FACTOR 0.8: the floor is
    80; a discount of 25 gives 75, a discount of 15 gives 85. *)
Lemma example_rejected :
  ProductSerializer_validate LOSS_FACTOR_example
    (triple (Qc_of_Z 100) (Qc_of_Z 100) 25) = Raise pricing_error.
Proof.
  destruct (triple_lookup (Qc_of_Z 100) (Qc_of_Z 100) 25) as (Hc & Hp & Hd).
  apply (validate_fails_iff _ _ _ _ _ Hc Hp Hd). reflexivity.
Qed.

Lemma example_accepted :
  ProductSerializer_validate LOSS_FACTOR_example
    (triple (Qc_of_Z 100) (Qc_of_Z 100) 15)
  = Ok (triple (Qc_of_Z 100) (Qc_of_Z 100) 15).
Proof.
  destruct (triple_lookup (Qc_of_Z 100) (Qc_of_Z 100) 15) as (Hc & Hp & Hd).
  apply (validate_passes_iff _ _ _ _ _ Hc Hp Hd). discriminate.
Qed.

(** ** The pricing rule under the decimal context *)

(** The operations of [Qc] as operations on rationals. *)
Lemma Qc_mult_eq (x y : Qc) : ((x * y)%Qc == (x : Q) * y)%Q.
Proof. apply Q2Qc_eq. Qed.

Lemma Qc_minus_eq (x y : Qc) : ((x - y)%Qc == (x : Q) - y)%Q.
Proof. unfold Qcminus, Qcplus. by rewrite Q2Qc_eq, Qc_opp_eq. Qed.

Lemma Qc_div_eq (x y : Qc) : ((x / y)%Qc == (x : Q) / y)%Q.
Proof. unfold Qcdiv, Qcmult, Qcinv. by rewrite !Q2Qc_eq. Qed.

(** For a discount of fewer than 28 digits the context rounds neither the
    percentage [discount / 100] nor the share [1 - discount / 100]. *)
Lemma percentage_exact (d : Z) :
  (Z.abs d < 10 ^ 27)%Z →
  Decimal_truediv (Qc_of_Z d) (Qc_of_Z 100) = Ok (Qc_of_Z d / Qc_of_Z 100).
Proof.
  intros Hd. apply (Decimal_fix_exact _ d (-2)); [unfold prec; lia|done|done|].
  rewrite Qc_div_eq. reflexivity.
Qed.

Lemma share_exact (d : Z) :
  (Z.abs d < 10 ^ 27)%Z →
  Decimal_sub 1 (Qc_of_Z d / Qc_of_Z 100) = Ok (1 - Qc_of_Z d / Qc_of_Z 100).
Proof.
  intros Hd. apply (Decimal_fix_exact _ (100 - d) (-2)); [unfold prec; lia|done|done|].
  rewrite Qc_minus_eq, Qc_div_eq.
  change (Qc_of_Z d : Q) with (inject_Z d). change (Qc_of_Z 100 : Q) with (inject_Z 100).
  change (1%Qc : Q) with 1%Q.
  unfold Z.sub. rewrite inject_Z_plus, inject_Z_opp.
  change (10 ^ (-2))%Q with (/ (10 * 10))%Q. field.
Qed.

Section PricingRuleInContext.

Variable LOSS_FACTOR : Qc.

(** [validate] under the context, on input that supplies the triple: when
    the four operations return, the outcome is the comparison of the two
    products as the context has rounded them. *)
Lemma validate_in_context_compares (attrs : dict) (c p : Qc) (d : Z)
    (min_acceptable_price percentage share discounted_price : Qc) :
  attrs !! "cost_price" = Some (VFloat c) →
  attrs !! "price" = Some (VFloat p) →
  attrs !! "discount" = Some (VInt d) →
  Decimal_mul c LOSS_FACTOR = Ok min_acceptable_price →
  Decimal_truediv (Qc_of_Z d) (Qc_of_Z 100) = Ok percentage →
  Decimal_sub 1 percentage = Ok share →
  Decimal_mul p share = Ok discounted_price →
  ProductSerializer_validate_in_context LOSS_FACTOR attrs
  = if bool_decide (discounted_price < min_acceptable_price)
    then Raise pricing_error else Ok attrs.
Proof.
  intros Hc Hp Hd Hfloor Hpercentage Hshare Hdiscounted.
  unfold ProductSerializer_validate_in_context, get.
  rewrite Hc, Hp, Hd. cbn [from_option Datatypes.id Decimal mbind result_bind].
  rewrite Hfloor. cbn [mbind result_bind]. rewrite Hpercentage.
  cbn [mbind result_bind]. rewrite Hshare. cbn [mbind result_bind].
  rewrite Hdiscounted. reflexivity.
Qed.

(** With a discount of fewer than 28 digits the share is not rounded: the
    two products are rounded, and the roundings are compared. *)
Lemma validate_in_context_supplied (attrs : dict) (c p : Qc) (d : Z) :
  attrs !! "cost_price" = Some (VFloat c) →
  attrs !! "price" = Some (VFloat p) →
  attrs !! "discount" = Some (VInt d) →
  (Z.abs d < 10 ^ 27)%Z →
  ProductSerializer_validate_in_context LOSS_FACTOR attrs
  = (min_acceptable_price ← Decimal_fix (floor_price LOSS_FACTOR c);
     discounted_price ← Decimal_fix (discounted p d);
     if bool_decide (discounted_price < min_acceptable_price)
     then Raise pricing_error else Ok attrs).
Proof.
  intros Hc Hp Hd Hdigits. unfold ProductSerializer_validate_in_context, get.
  rewrite Hc, Hp, Hd. cbn [from_option Datatypes.id Decimal mbind result_bind].
  unfold Decimal_mul. fold (floor_price LOSS_FACTOR c).
  destruct (Decimal_fix (floor_price LOSS_FACTOR c)) as [m|e]; [|reflexivity].
  cbn [mbind result_bind]. rewrite (percentage_exact d Hdigits).
  cbn [mbind result_bind]. rewrite (share_exact d Hdigits).
  reflexivity.
Qed.

(** The context never makes the rule reject a triple that exact arithmetic
    accepts. *)
Lemma validate_in_context_rejects (attrs : dict) (c p : Qc) (d : Z) :
  attrs !! "cost_price" = Some (VFloat c) →
  attrs !! "price" = Some (VFloat p) →
  attrs !! "discount" = Some (VInt d) →
  (Z.abs d < 10 ^ 27)%Z →
  ProductSerializer_validate_in_context LOSS_FACTOR attrs = Raise pricing_error →
  discounted p d < floor_price LOSS_FACTOR c.
Proof.
  intros Hc Hp Hd Hdigits.
  rewrite (validate_in_context_supplied attrs c p d Hc Hp Hd Hdigits).
  destruct (Decimal_fix (floor_price LOSS_FACTOR c)) as [m|e] eqn:Hfloor;
    cbn [mbind result_bind];
    [|apply Decimal_fix_raises in Hfloor as ->; discriminate].
  destruct (Decimal_fix (discounted p d)) as [n|e] eqn:Hdiscounted;
    cbn [mbind result_bind];
    [|apply Decimal_fix_raises in Hdiscounted as ->; discriminate].
  case_bool_decide as Hlt; [|discriminate]. intros _.
  apply Qcnot_le_lt. intros Hle. apply (Qclt_not_le _ _ Hlt).
  exact (Decimal_fix_mono _ _ _ _ Hfloor Hdiscounted Hle).
Qed.

(** The context makes the rule reject every triple whose sides it can tell
    apart: two numbers that the context does not round lie between them. *)
Lemma validate_in_context_separated (attrs : dict) (c p : Qc) (d : Z)
    (lower upper discounted_price min_acceptable_price : Qc) :
  attrs !! "cost_price" = Some (VFloat c) →
  attrs !! "price" = Some (VFloat p) →
  attrs !! "discount" = Some (VInt d) →
  (Z.abs d < 10 ^ 27)%Z →
  Decimal_fix (discounted p d) = Ok discounted_price →
  Decimal_fix (floor_price LOSS_FACTOR c) = Ok min_acceptable_price →
  Decimal_fix lower = Ok lower → Decimal_fix upper = Ok upper →
  discounted p d ≤ lower → lower < upper → upper ≤ floor_price LOSS_FACTOR c →
  ProductSerializer_validate_in_context LOSS_FACTOR attrs = Raise pricing_error.
Proof.
  intros Hc Hp Hd Hdigits Hdiscounted Hfloor Hlower Hupper Hbelow Hapart Habove.
  rewrite (validate_in_context_supplied attrs c p d Hc Hp Hd Hdigits).
  rewrite Hfloor, Hdiscounted. cbn [mbind result_bind].
  rewrite bool_decide_eq_true_2; [reflexivity|].
  eapply Qcle_lt_trans; [exact (Decimal_fix_mono _ _ _ _ Hdiscounted Hlower Hbelow)|].
  eapply Qclt_le_trans; [exact Hapart|].
  exact (Decimal_fix_mono _ _ _ _ Hupper Hfloor Habove).
Qed.

(** Where the context rounds neither product, the rule is the exact
    comparison. *)
Lemma validate_in_context_exact (attrs : dict) (c p : Qc) (d : Z) :
  attrs !! "cost_price" = Some (VFloat c) →
  attrs !! "price" = Some (VFloat p) →
  attrs !! "discount" = Some (VInt d) →
  (Z.abs d < 10 ^ 27)%Z →
  Decimal_fix (floor_price LOSS_FACTOR c) = Ok (floor_price LOSS_FACTOR c) →
  Decimal_fix (discounted p d) = Ok (discounted p d) →
  ProductSerializer_validate_in_context LOSS_FACTOR attrs
  = ProductSerializer_validate LOSS_FACTOR attrs.
Proof.
  intros Hc Hp Hd Hdigits Hfloor Hdiscounted.
  rewrite (validate_in_context_supplied attrs c p d Hc Hp Hd Hdigits).
  rewrite (validate_supplied LOSS_FACTOR attrs c p d Hc Hp Hd).
  rewrite Hfloor, Hdiscounted. reflexivity.
Qed.

End PricingRuleInContext.

(** The spec's example under the context: nothing is rounded. *)
Lemma example_rejected_in_context :
  ProductSerializer_validate_in_context LOSS_FACTOR_example
    (triple (Qc_of_Z 100) (Qc_of_Z 100) 25) = Raise pricing_error.
Proof. vm_compute. reflexivity. Qed.

Lemma example_accepted_in_context :
  ProductSerializer_validate_in_context LOSS_FACTOR_example
    (triple (Qc_of_Z 100) (Qc_of_Z 100) 15)
  = Ok (triple (Qc_of_Z 100) (Qc_of_Z 100) 15).
Proof. vm_compute. reflexivity. Qed.

(** C1, as the spec states it, fails: the rule compares the two sides as
    the decimal context has rounded them to 28 significant digits, and two
    sides that differ only beyond those digits compare equal.  With
    LOSS_FACTOR 0.8, cost_price 10^30 + 19884624838656, price 1 and discount
    -80000000000000001590769987092379 the discounted price is below the
    floor by one hundredth, and the rule passes. *)
Lemma pricing_rule_compares_rounded_sides :
  ¬ (∀ (LOSS_FACTOR : Qc) (attrs : dict) (cost_price price : Qc) (discount : Z),
       attrs !! "cost_price" = Some (VFloat cost_price) →
       attrs !! "price" = Some (VFloat price) →
       attrs !! "discount" = Some (VInt discount) →
       (ProductSerializer_validate_in_context LOSS_FACTOR attrs = Raise pricing_error
        ↔ price * (1 - Qc_of_Z discount / Qc_of_Z 100) < cost_price * LOSS_FACTOR)).
Proof.
  intros Hclaim.
  destruct (triple_lookup far_cost_price 1 far_discount) as (Hc & Hp & Hd).
  pose proof (proj2 (Hclaim LOSS_FACTOR_example _ _ _ _ Hc Hp Hd)) as Hrejected.
  assert (Hpasses :
    ProductSerializer_validate_in_context LOSS_FACTOR_example
      (triple far_cost_price 1 far_discount)
    = Ok (triple far_cost_price 1 far_discount)) by (vm_compute; reflexivity).
  rewrite Hpasses in Hrejected.
  assert (Hbelow : 1 * (1 - Qc_of_Z far_discount / Qc_of_Z 100)
                   < far_cost_price * LOSS_FACTOR_example) by reflexivity.
  discriminate (Hrejected Hbelow).
Qed.

(** C1, amended.  The pricing rule computes both sides in the decimal
    context, which rounds the quotient, the difference and each product to 28
    significant digits, and fails with the validation error exactly when the
    discounted price so computed is below the floor so computed.  For a
    discount of fewer than 28 digits: the rule fails only when
    [price * (1 - discount/100) < cost_price * LOSS_FACTOR]; it passes when
    the two sides are equal; it fails whenever two numbers that the context
    does not round lie between the discounted price and the floor; and where
    the context rounds neither side, it fails exactly when the discounted
    price is below the floor and passes otherwise.  With cost_price 100 and
    LOSS_FACTOR 0.8, price 100 with discount 25 is rejected and price 100
    with discount 15 is accepted. *)
Theorem pricing_rule_in_context :
  (∀ (LOSS_FACTOR : Qc) (attrs : dict) (cost_price price : Qc) (discount : Z),
     attrs !! "cost_price" = Some (VFloat cost_price) →
     attrs !! "price" = Some (VFloat price) →
     attrs !! "discount" = Some (VInt discount) →
     (∀ min_acceptable_price percentage share discounted_price : Qc,
        Decimal_mul cost_price LOSS_FACTOR = Ok min_acceptable_price →
        Decimal_truediv (Qc_of_Z discount) (Qc_of_Z 100) = Ok percentage →
        Decimal_sub 1 percentage = Ok share →
        Decimal_mul price share = Ok discounted_price →
        (ProductSerializer_validate_in_context LOSS_FACTOR attrs = Raise pricing_error
         ↔ discounted_price < min_acceptable_price)
        ∧ (ProductSerializer_validate_in_context LOSS_FACTOR attrs = Ok attrs
           ↔ min_acceptable_price ≤ discounted_price))
     ∧ ((Z.abs discount < 10 ^ 27)%Z →
        (ProductSerializer_validate_in_context LOSS_FACTOR attrs = Raise pricing_error →
         price * (1 - Qc_of_Z discount / Qc_of_Z 100) < cost_price * LOSS_FACTOR)
        ∧ (∀ min_acceptable_price : Qc,
             Decimal_mul cost_price LOSS_FACTOR = Ok min_acceptable_price →
             price * (1 - Qc_of_Z discount / Qc_of_Z 100) = cost_price * LOSS_FACTOR →
             ProductSerializer_validate_in_context LOSS_FACTOR attrs = Ok attrs)
        ∧ (∀ lower upper discounted_price min_acceptable_price : Qc,
             Decimal_mul price (1 - Qc_of_Z discount / Qc_of_Z 100)
             = Ok discounted_price →
             Decimal_mul cost_price LOSS_FACTOR = Ok min_acceptable_price →
             Decimal_fix lower = Ok lower → Decimal_fix upper = Ok upper →
             price * (1 - Qc_of_Z discount / Qc_of_Z 100) ≤ lower →
             lower < upper →
             upper ≤ cost_price * LOSS_FACTOR →
             ProductSerializer_validate_in_context LOSS_FACTOR attrs
             = Raise pricing_error)
        ∧ (Decimal_mul cost_price LOSS_FACTOR = Ok (cost_price * LOSS_FACTOR) →
           Decimal_mul price (1 - Qc_of_Z discount / Qc_of_Z 100)
           = Ok (price * (1 - Qc_of_Z discount / Qc_of_Z 100)) →
           (ProductSerializer_validate_in_context LOSS_FACTOR attrs
            = Raise pricing_error
            ↔ price * (1 - Qc_of_Z discount / Qc_of_Z 100) < cost_price * LOSS_FACTOR)
           ∧ (ProductSerializer_validate_in_context LOSS_FACTOR attrs = Ok attrs
              ↔ cost_price * LOSS_FACTOR
                ≤ price * (1 - Qc_of_Z discount / Qc_of_Z 100)))))
  ∧ ProductSerializer_validate_in_context LOSS_FACTOR_example
      (triple (Qc_of_Z 100) (Qc_of_Z 100) 25) = Raise pricing_error
  ∧ ProductSerializer_validate_in_context LOSS_FACTOR_example
      (triple (Qc_of_Z 100) (Qc_of_Z 100) 15)
    = Ok (triple (Qc_of_Z 100) (Qc_of_Z 100) 15).
Proof.
  split; [|split; [exact example_rejected_in_context|exact example_accepted_in_context]].
  intros LF attrs c p d Hc Hp Hd. split.
  { intros m q s n Hfloor Hpercentage Hshare Hdiscounted.
    rewrite (validate_in_context_compares LF attrs c p d m q s n Hc Hp Hd
               Hfloor Hpercentage Hshare Hdiscounted).
    rewrite Qcle_ngt.
    case_bool_decide as Hlt; (split; split; intros Hx);
      first [done | discriminate Hx | contradiction]. }
  intros Hdigits. split; [|split; [|split]].
  - apply (validate_in_context_rejects LF attrs c p d Hc Hp Hd Hdigits).
  - intros m Hfloor Hequal.
    rewrite (validate_in_context_supplied LF attrs c p d Hc Hp Hd Hdigits).
    unfold discounted, floor_price. unfold Decimal_mul in Hfloor.
    rewrite Hequal, Hfloor. cbn [mbind result_bind].
    rewrite bool_decide_eq_false_2 by apply Qcle_not_lt, Qcle_refl. reflexivity.
  - intros lower upper n m Hdiscounted Hfloor Hlower Hupper Hbelow Hapart Habove.
    exact (validate_in_context_separated LF attrs c p d lower upper n m Hc Hp Hd
             Hdigits Hdiscounted Hfloor Hlower Hupper Hbelow Hapart Habove).
  - intros Hfloor Hdiscounted.
    rewrite (validate_in_context_exact LF attrs c p d Hc Hp Hd Hdigits Hfloor Hdiscounted).
    split.
    + apply (validate_fails_iff LF attrs c p d Hc Hp Hd).
    + apply (validate_passes_iff LF attrs c p d Hc Hp Hd).
Qed.

(** The boundary of the example: at discount 20 the two sides are both 80
    and the rule passes. *)
Lemma pricing_rule_in_context_witness :
  ProductSerializer_validate_in_context LOSS_FACTOR_example
    (triple (Qc_of_Z 100) (Qc_of_Z 100) 20)
  = Ok (triple (Qc_of_Z 100) (Qc_of_Z 100) 20).
Proof.
  destruct (triple_lookup (Qc_of_Z 100) (Qc_of_Z 100) 20) as (Hc & Hp & Hd).
  refine (proj1 (proj2 (proj2 (proj1 pricing_rule_in_context LOSS_FACTOR_example
                                 _ _ _ _ Hc Hp Hd) _)) _ _ _).
  - reflexivity.
  - reflexivity.
  - apply Qc_is_canon. reflexivity.
Defined.







(** ** Serializer selection *)

Lemma search_selection_unregistered (self_action : option string) :
  self_action ≠ Some "list" → self_action ≠ Some "retrieve" →
  ProductSearchViewSet_get_serializer_class self_action
  = Raise (Exception ("Serializer for self.action=" +:+ repr_opt self_action
                      +:+ " is not exist")).
Proof.
  intros Hlist Hretrieve. unfold ProductSearchViewSet_get_serializer_class.
  destruct self_action as [a|]; [|reflexivity]. simpl.
  rewrite lookup_insert_ne by congruence.
  rewrite lookup_singleton_ne by congruence. reflexivity.
Qed.

Lemma detail_selection_unregistered (request_method : string) :
  lower request_method ≠ "put" → lower request_method ≠ "patch" →
  lower request_method ≠ "get" →
  ProductDetailUpdateAPIView_get_serializer_class request_method
  = Raise (Exception ("Serializer for method=" +:+ repr_str (lower request_method)
                      +:+ " does not exist.")).
Proof.
  intros Hput Hpatch Hget. unfold ProductDetailUpdateAPIView_get_serializer_class.
  rewrite lookup_insert_ne by congruence.
  rewrite lookup_insert_ne by congruence.
  rewrite lookup_singleton_ne by congruence. reflexivity.
Qed.

Lemma detail_selection_registered (request_method : string) :
  (lower request_method = "put" →
   ProductDetailUpdateAPIView_get_serializer_class request_method = Ok ProductSerializer_cls)
  ∧ (lower request_method = "get" →
     ProductDetailUpdateAPIView_get_serializer_class request_method = Ok ProductSerializer_cls)
  ∧ (lower request_method = "patch" →
     ProductDetailUpdateAPIView_get_serializer_class request_method
     = Ok ProductPartialUpdateSerializer_cls).
Proof.
  unfold ProductDetailUpdateAPIView_get_serializer_class.
  repeat split; intros ->; reflexivity.
Qed.

(** An exception raised while selecting the serializer leaves
    [update_product] at once, before anything is validated or written. *)
Lemma update_product_selection_raises (LOSS_FACTOR : Qc)
    (Category_str : Category → string) (now : datetime) (request_method : string)
    (pk : Z) (request_data : dict) (partial : bool) (st : Store)
    (instance : Product) (e : exn) :
  Product_get_object pk st = (Ok instance, st) →
  ProductDetailUpdateAPIView_get_serializer_class request_method = Raise e →
  update_product LOSS_FACTOR Category_str now request_method pk request_data partial st
  = (Raise e, st).
Proof.
  intros Hget Hcls. unfold update_product, mbind, action_bind, lift.
  rewrite Hget, Hcls. reflexivity.
Qed.

(** C9.  Each view selects the serializer registered for the operation: the
    search view set maps [list] to the listing serializer and [retrieve] to
    the detail serializer; the administrative view maps the request methods
    GET and PUT to the full serializer and PATCH to the partial one.  For
    every other operation the selection raises a plain [Exception], which no
    handler of the view catches: [update_product] is left with that exception
    and the store as it was. *)
Theorem serializer_selection :
  ProductSearchViewSet_get_serializer_class (Some "list") = Ok ProductSearchSerializer_cls
  ∧ ProductSearchViewSet_get_serializer_class (Some "retrieve")
    = Ok ProductDetailSerializer_cls
  ∧ (∀ self_action : option string,
       self_action ≠ Some "list" → self_action ≠ Some "retrieve" →
       ∃ msg, ProductSearchViewSet_get_serializer_class self_action
              = Raise (Exception msg))
  ∧ ProductDetailUpdateAPIView_get_serializer_class "GET" = Ok ProductSerializer_cls
  ∧ ProductDetailUpdateAPIView_get_serializer_class "PUT" = Ok ProductSerializer_cls
  ∧ ProductDetailUpdateAPIView_get_serializer_class "PATCH"
    = Ok ProductPartialUpdateSerializer_cls
  ∧ (∀ request_method : string,
       lower request_method ≠ "get" → lower request_method ≠ "put" →
       lower request_method ≠ "patch" →
       ∃ msg,
         ProductDetailUpdateAPIView_get_serializer_class request_method
         = Raise (Exception msg)
         ∧ ∀ LOSS_FACTOR Category_str now pk request_data partial st instance,
             Product_get_object pk st = (Ok instance, st) →
             update_product LOSS_FACTOR Category_str now request_method pk
               request_data partial st
             = (Raise (Exception msg), st)).
Proof.
  split; [reflexivity|]. split; [reflexivity|]. split.
  { intros a Hlist Hretrieve. eexists.
    by apply search_selection_unregistered. }
  split; [reflexivity|]. split; [reflexivity|]. split; [reflexivity|].
  intros m Hget Hput Hpatch. eexists. split.
  - by apply detail_selection_unregistered.
  - intros LF cstr now pk request_data partial st instance Hobj.
    eapply update_product_selection_raises; [exact Hobj|].
    by apply detail_selection_unregistered.
Qed.

(** The method DELETE has no registered serializer. *)
Lemma serializer_selection_witness :
  ∃ msg, ProductDetailUpdateAPIView_get_serializer_class "DELETE"
         = Raise (Exception msg).
Proof.
  destruct (proj2 (proj2 (proj2 (proj2 (proj2 (proj2 serializer_selection)))))
              "DELETE") as [msg [Hmsg _]]; [discriminate..|].
  exists msg. exact Hmsg.
Defined.

(** ** Representations and the discount projection *)

Local Open Scope string_scope.

(** What each product serializer emits for a product. *)
Lemma search_representation (Category_str : Category → string) (p : Product) :
  to_representation Category_str ProductSearchSerializer (ProductObj p)
  = Ok (remove_discount_fields
          (<["discounted_price" := VFloat (discounted (price p) (discount p))]>
          (<["price" := VFloat (price p)]>
          (<["name" := VStr (name p)]> ∅)))).
Proof. reflexivity. Qed.

Lemma detail_representation (Category_str : Category → string) (p : Product) :
  to_representation Category_str ProductDetailSerializer (ProductObj p)
  = Ok (remove_discount_fields
          (<["updated_at" := VStr (strftime (updated_at p) timestamp_format)]>
          (<["created_at" := VStr (strftime (created_at p) timestamp_format)]>
          (<["quantity" := VInt (quantity p)]>
          (<["discount" := VInt (discount p)]>
          (<["discounted_price" := VFloat (discounted (price p) (discount p))]>
          (<["price" := VFloat (price p)]>
          (<["category" := VStr (category_name (category p))]>
          (<["name" := VStr (name p)]> ∅))))))))).
Proof. reflexivity. Qed.

Lemma full_representation (LOSS_FACTOR : Qc) (Category_str : Category → string)
    (p : Product) :
  to_representation Category_str (ProductSerializer LOSS_FACTOR) (ProductObj p)
  = Ok (<["updated_at" := VStr (strftime (updated_at p) timestamp_format)]>
       (<["created_at" := VStr (strftime (created_at p) timestamp_format)]>
       (<["cost_price" := VFloat (cost_price p)]>
       (<["available" := VBool (available p)]>
       (<["discount" := VInt (discount p)]>
       (<["quantity" := VInt (quantity p)]>
       (<["price" := VFloat (price p)]>
       (<["category" := VStr (Category_str (category p))]>
       (<["name" := VStr (name p)]>
       (<["id" := VInt (id p)]> ∅)))))))))).
Proof. reflexivity. Qed.

Lemma remove_discount_fields_idemp (data : dict) :
  remove_discount_fields (remove_discount_fields data) = remove_discount_fields data.
Proof.
  unfold remove_discount_fields. apply delete_id, lookup_delete_eq.
Qed.

Lemma remove_discount_fields_lookup (data : dict) :
  remove_discount_fields data !! "discount" = None.
Proof. unfold remove_discount_fields. apply lookup_delete_eq. Qed.

(** Whatever the inherited representation gives, the projected one has no
    raw discount. *)
Lemma projected_lookup (super : object → result dict) (instance : object) (d : dict) :
  projected super instance = Ok d → d !! "discount" = None.
Proof.
  unfold projected. destruct (super instance) as [data|e]; simpl; [|discriminate].
  intros [= <-]. apply remove_discount_fields_lookup.
Qed.

Lemma half_of_ten : discounted (Qc_of_Z 10) 50 = Qc_of_Z 5.
Proof. apply Qc_is_canon. reflexivity. Qed.

(** C5.  For every product the listing output and the retrieval output
    carry no raw discount, while the full administrative representation
    carries the product's discount.  The listing output of a product named
    Mug with price 10 and discount 50 is exactly name Mug, price 10 and
    discounted_price 5. *)
Theorem discount_projection_shapes :
  (∀ (Category_str : Category → string) (p : Product),
     (∃ d, to_representation Category_str ProductSearchSerializer (ProductObj p) = Ok d
           ∧ d !! "discount" = None)
     ∧ (∃ d, to_representation Category_str ProductDetailSerializer (ProductObj p) = Ok d
             ∧ d !! "discount" = None))
  ∧ (∀ (LOSS_FACTOR : Qc) (Category_str : Category → string) (p : Product),
       ∃ d, to_representation Category_str (ProductSerializer LOSS_FACTOR) (ProductObj p)
            = Ok d
            ∧ d !! "discount" = Some (VInt (discount p)))
  ∧ (∀ (Category_str : Category → string) (p : Product),
       name p = "Mug" → price p = Qc_of_Z 10 → discount p = 50%Z →
       to_representation Category_str ProductSearchSerializer (ProductObj p)
       = Ok {[ "name" := VStr "Mug";
               "price" := VFloat (Qc_of_Z 10);
               "discounted_price" := VFloat (Qc_of_Z 5) ]}).
Proof.
  split; [|split].
  - intros cstr p. split; eexists.
    + split; [apply search_representation|apply remove_discount_fields_lookup].
    + split; [apply detail_representation|apply remove_discount_fields_lookup].
  - intros LF cstr p. eexists. split; [apply full_representation|].
    by simplify_map_eq.
  - intros cstr p Hname Hprice Hdiscount.
    rewrite search_representation, Hname, Hprice, Hdiscount, half_of_ten.
    reflexivity.
Qed.

(** The spec's example product. *)
Lemma discount_projection_shapes_witness :
  to_representation category_name ProductSearchSerializer (ProductObj mug)
  = Ok {[ "name" := VStr "Mug";
          "price" := VFloat (Qc_of_Z 10);
          "discounted_price" := VFloat (Qc_of_Z 5) ]}.
Proof.
  apply (proj2 (proj2 discount_projection_shapes) category_name mug); reflexivity.
Defined.

(** C8.  The discount projection is idempotent: removing the discount fields
    twice gives what removing them once gives, so projecting a projected
    representation changes nothing, and the output of either customer-facing
    serializer is a fixed point of the projection. *)
Theorem discount_projection_idempotent :
  (∀ data : dict,
     remove_discount_fields (remove_discount_fields data) = remove_discount_fields data)
  ∧ (∀ (super : object → result dict) (instance : object),
       projected (projected super) instance = projected super instance)
  ∧ (∀ (Category_str : Category → string) (instance : object) (d : dict),
       to_representation Category_str ProductSearchSerializer instance = Ok d
       ∨ to_representation Category_str ProductDetailSerializer instance = Ok d →
       remove_discount_fields d = d).
Proof.
  split; [exact remove_discount_fields_idemp|]. split.
  - intros super instance. unfold projected.
    destruct (super instance) as [data|e]; simpl; [|reflexivity].
    by rewrite remove_discount_fields_idemp.
  - intros cstr instance d Hd.
    assert (Hnone : d !! "discount" = None).
    { destruct Hd as [Hd|Hd]; exact (projected_lookup _ _ _ Hd). }
    unfold remove_discount_fields. by apply delete_id.
Qed.

(** The retrieval output of the mug is unchanged by a second projection. *)
Lemma discount_projection_idempotent_witness :
  ∃ d : dict,
    to_representation category_name ProductDetailSerializer (ProductObj mug) = Ok d
    ∧ remove_discount_fields d = d.
Proof.
  eexists. split; [apply detail_representation|].
  apply (proj2 (proj2 discount_projection_idempotent) category_name (ProductObj mug)).
  right. apply detail_representation.
Defined.

(** ** Validated data *)

(** A key that no writable field stores under is not in the validated
    data. *)
Lemma to_internal_value_foreign_key (partial : bool) (data : dict) (key : string)
    (fields : list Field) :
  Forall (λ f, read_only f = true ∨ source_key f ≠ key) fields →
  ∀ (acc : result (dict * dict)) (collected : dict * dict),
    foldl (to_internal_value_step partial data) acc fields = Ok collected →
    ∃ before, acc = Ok before ∧ collected.1 !! key = before.1 !! key.
Proof.
  induction 1 as [|f fields Hf _ IH]; intros acc collected; simpl.
  - intros ->. eauto.
  - intros Hfold. destruct (IH _ _ Hfold) as (mid & Hstep & Hkey).
    unfold to_internal_value_step in Hstep.
    destruct acc as [before|e]; [|discriminate]. simpl in Hstep.
    exists before. split; [reflexivity|]. rewrite Hkey.
    destruct Hf as [Hro|Hne].
    + rewrite Hro in Hstep. by injection Hstep as <-.
    + destruct (read_only f); [by injection Hstep as <-|].
      destruct (field_run_validation partial f (data !! field_name f));
        try discriminate; injection Hstep as <-; simpl; try reflexivity.
      by rewrite lookup_insert_ne.
Qed.

(** What [is_valid] accepts is what the fields validated: [validate] adds
    nothing. *)
Lemma is_valid_product_inv (LOSS_FACTOR : Qc) (partial : bool)
    (data validated_data : dict) :
  is_valid (ProductSerializer LOSS_FACTOR) partial data = Ok (Valid validated_data) →
  ∃ errors,
    to_internal_value partial ProductSerializer_fields data
    = Ok (validated_data, errors).
Proof.
  unfold is_valid. simpl fields. simpl validate.
  destruct (to_internal_value partial ProductSerializer_fields data)
    as [[value errors]|e]; [|discriminate]. simpl.
  case_bool_decide; [|discriminate].
  destruct (ProductSerializer_validate LOSS_FACTOR value) as [value'|e] eqn:Hvalidate.
  - intros [= <-]. apply validate_returns_input in Hvalidate. subst. eauto.
  - destruct e as [| | | |[msgs|d]| | | | |]; discriminate.
Qed.

(** The product serializer declares the field [category], so its validated
    data never holds the key [category_id]. *)
Lemma validated_data_no_category_id (LOSS_FACTOR : Qc) (partial : bool)
    (data validated_data : dict) :
  is_valid (ProductSerializer LOSS_FACTOR) partial data = Ok (Valid validated_data) →
  validated_data !! "category_id" = None.
Proof.
  intros Hvalid. destruct (is_valid_product_inv _ _ _ _ Hvalid) as [errors Hfields].
  unfold to_internal_value in Hfields.
  apply (to_internal_value_foreign_key _ _ "category_id") in Hfields
    as (before & [= <-] & Hkey); [exact Hkey|].
  unfold ProductSerializer_fields.
  repeat (constructor; [first [left; reflexivity | right; discriminate]|]).
  constructor.
Qed.

(** ** Creating a product *)

Section CreateProduct.

Variable LOSS_FACTOR : Qc.
Variable Category_str : Category → string.
Variable now : datetime.

(** The view reads [validated_data["category_id"]] first of all, and that
    subscript raises. *)
Lemma post_valid_raises (request_data validated_data : dict) (st : Store) :
  is_valid (ProductSerializer LOSS_FACTOR) false request_data = Ok (Valid validated_data) →
  ProductCreateAPIView_post LOSS_FACTOR Category_str now request_data st
  = (Raise (KeyError "category_id"), st).
Proof.
  intros Hvalid.
  pose proof (validated_data_no_category_id _ _ _ _ Hvalid) as Hnone.
  unfold ProductCreateAPIView_post, mbind, action_bind, lift.
  rewrite Hvalid. unfold except_ObjectDoesNotExist, getitem.
  rewrite Hnone. reflexivity.
Qed.

Lemma post_invalid_responds (request_data errors : dict) (st : Store) :
  is_valid (ProductSerializer LOSS_FACTOR) false request_data = Ok (Invalid errors) →
  ProductCreateAPIView_post LOSS_FACTOR Category_str now request_data st
  = (Ok {| data := One errors; status := HTTP_400_BAD_REQUEST |}, st).
Proof.
  intros Hinvalid. unfold ProductCreateAPIView_post, mbind, action_bind, lift.
  rewrite Hinvalid. reflexivity.
Qed.

Lemma post_store_unchanged (request_data : dict) (st : Store) :
  (ProductCreateAPIView_post LOSS_FACTOR Category_str now request_data st).2 = st.
Proof.
  destruct (is_valid (ProductSerializer LOSS_FACTOR) false request_data)
    as [[validated_data|errors]|e] eqn:Hvalid.
  - by rewrite (post_valid_raises _ _ _ Hvalid).
  - by rewrite (post_invalid_responds _ _ _ Hvalid).
  - unfold ProductCreateAPIView_post, mbind, action_bind, lift.
    rewrite Hvalid. reflexivity.
Qed.

End CreateProduct.

(** C3 fails on the code.  Every create request whose data pass validation,
    pricing rule included, ends in [KeyError('category_id')]: the serializer
    declares [category], the view subscripts [category_id].  Nothing is
    persisted and no response is returned, whatever the store holds. *)
Theorem create_product_raises_key_error (LOSS_FACTOR : Qc)
    (Category_str : Category → string) (now : datetime)
    (request_data validated_data : dict) (st : Store) :
  is_valid (ProductSerializer LOSS_FACTOR) false request_data = Ok (Valid validated_data) →
  ProductCreateAPIView_post LOSS_FACTOR Category_str now request_data st
  = (Raise (KeyError "category_id"), st).
Proof. apply post_valid_raises. Qed.

Lemma create_product_raises_key_error_witness :
  ProductCreateAPIView_post LOSS_FACTOR_example category_name noon cup_request shop
  = (Raise (KeyError "category_id"), shop).
Proof.
  eapply create_product_raises_key_error. reflexivity.
Defined.

(** C6 fails on the code.  A valid create request under a name that a
    stored product already has does not reach the name check: it ends in
    [KeyError('category_id')], not in the conflict response.  The store is
    unchanged. *)
Theorem duplicate_name_raises_key_error (LOSS_FACTOR : Qc)
    (Category_str : Category → string) (now : datetime)
    (request_data validated_data : dict) (st : Store) (N : string) :
  Exists (λ p, name p = N) (products st) →
  validated_data !! "name" = Some (VStr N) →
  is_valid (ProductSerializer LOSS_FACTOR) false request_data = Ok (Valid validated_data) →
  ProductCreateAPIView_post LOSS_FACTOR Category_str now request_data st
  = (Raise (KeyError "category_id"), st).
Proof. intros _ _. apply post_valid_raises. Qed.

Lemma duplicate_name_raises_key_error_witness :
  ProductCreateAPIView_post LOSS_FACTOR_example category_name noon
    second_mug_request shop
  = (Raise (KeyError "category_id"), shop).
Proof.
  eapply (duplicate_name_raises_key_error _ _ _ _ _ _ "Mug").
  - apply Exists_cons_hd. reflexivity.
  - shelve.
  - reflexivity.
  Unshelve. reflexivity.
Defined.

(** C7 fails on the code.  A valid create request that names a category id
    no stored category has does not reach the category lookup: it ends in
    [KeyError('category_id')], not in the not-found response.  The store is
    unchanged. *)
Theorem missing_category_raises_key_error (LOSS_FACTOR : Qc)
    (Category_str : Category → string) (now : datetime)
    (request_data validated_data : dict) (st : Store) (n : Z) :
  request_data !! "category_id" = Some (VInt n) →
  Forall (λ c, category_id c ≠ n) (categories st) →
  is_valid (ProductSerializer LOSS_FACTOR) false request_data = Ok (Valid validated_data) →
  ProductCreateAPIView_post LOSS_FACTOR Category_str now request_data st
  = (Raise (KeyError "category_id"), st).
Proof. intros _ _. apply post_valid_raises. Qed.

Lemma missing_category_raises_key_error_witness :
  ProductCreateAPIView_post LOSS_FACTOR_example category_name noon orphan_request shop
  = (Raise (KeyError "category_id"), shop).
Proof.
  eapply (missing_category_raises_key_error _ _ _ _ _ _ 999).
  - reflexivity.
  - repeat constructor. discriminate.
  - reflexivity.
Defined.

(** ** Saving a product *)

Section PartialUpdate.

Variable LOSS_FACTOR : Qc.
Variable Category_str : Category → string.
Variable now : datetime.

(** Overwriting the rows of one identifier keeps them where they were. *)
Lemma filter_overwritten (pk : Z) (p' row : Product) (rows rest : list Product) :
  id p' = pk →
  filter (λ p, id p = pk) rows = row :: rest →
  ∃ rest',
    filter (λ p, id p = pk)
      (map (λ r, if bool_decide (id r = id p') then touch now p' else r) rows)
    = touch now p' :: rest'.
Proof.
  intros Hid. induction rows as [|r rows IH]; [discriminate|].
  rewrite filter_cons. simpl. rewrite filter_cons.
  destruct (decide (id r = pk)) as [Hr|Hr].
  - intros _. rewrite bool_decide_eq_true_2 by congruence.
    rewrite decide_True by (simpl; congruence). eauto.
  - rewrite bool_decide_eq_false_2 by congruence.
    rewrite decide_False by exact Hr. exact IH.
Qed.

(** After the save, the row is the saved instance with the new modification
    time. *)
Lemma get_object_after_save (pk : Z) (st : Store) (instance p' : Product) :
  Product_get_object pk st = (Ok instance, st) →
  id p' = id instance →
  Product_get_object pk (Product_save now p' st).2
  = (Ok (touch now p'), (Product_save now p' st).2).
Proof.
  unfold Product_get_object. intros Hget Hid.
  destruct (filter (λ p, id p = pk) (products st)) as [|row rest] eqn:Hfilter;
    [discriminate|].
  injection Hget as ->.
  assert (Hpk : id instance = pk).
  { assert (Hin : instance ∈ filter (λ p, id p = pk) (products st))
      by (rewrite Hfilter; left).
    by apply list_elem_of_filter in Hin as [Hin _]. }
  destruct (filter_overwritten pk p' instance (products st) rest) as [rest' Hrest'];
    [congruence|exact Hfilter|].
  unfold Product_save at 1. simpl products. rewrite Hrest'. reflexivity.
Qed.

End PartialUpdate.

(** ** Further properties of the views and of the pricing rule *)

(** A create request that the pricing rule rejects is answered 400 with the
    rule's message under [non_field_errors], and nothing is written. *)
Theorem create_product_pricing_rejection (LOSS_FACTOR : Qc)
    (Category_str : Category → string) (now : datetime)
    (request_data value : dict) (st : Store) :
  to_internal_value false ProductSerializer_fields request_data = Ok (value, ∅) →
  ProductSerializer_validate LOSS_FACTOR value = Raise pricing_error →
  ProductCreateAPIView_post LOSS_FACTOR Category_str now request_data st
  = (Ok {| data := One {[ "non_field_errors" := VList [pricing_message] ]};
           status := HTTP_400_BAD_REQUEST |}, st).
Proof.
  intros Hfields Hrule. apply post_invalid_responds.
  unfold is_valid. simpl fields. simpl validate. rewrite Hfields. simpl.
  rewrite bool_decide_eq_true_2 by reflexivity. rewrite Hrule. reflexivity.
Qed.

(** The cup at a discount of 25 falls below the floor of 80. *)
Lemma create_product_pricing_rejection_witness :
  ProductCreateAPIView_post LOSS_FACTOR_example category_name noon
    (<["discount" := VInt 25]> cup_request) shop
  = (Ok {| data := One {[ "non_field_errors" := VList [pricing_message] ]};
           status := HTTP_400_BAD_REQUEST |}, shop).
Proof.
  eapply create_product_pricing_rejection; reflexivity.
Defined.

(** [validate] hands back the very input it was given when it passes. *)
Theorem validate_is_identity_on_success (LOSS_FACTOR : Qc) (attrs value : dict) :
  ProductSerializer_validate LOSS_FACTOR attrs = Ok value → value = attrs.
Proof. apply validate_returns_input. Qed.

Lemma validate_is_identity_on_success_witness :
  ProductSerializer_validate LOSS_FACTOR_example
    (triple (Qc_of_Z 100) (Qc_of_Z 100) 15)
  = Ok (triple (Qc_of_Z 100) (Qc_of_Z 100) 15)
  ∧ triple (Qc_of_Z 100) (Qc_of_Z 100) 15 = triple (Qc_of_Z 100) (Qc_of_Z 100) 15.
Proof.
  split; [exact example_accepted|].
  apply (validate_is_identity_on_success LOSS_FACTOR_example).
  exact example_accepted.
Defined.




(** ** Creating a category *)

Lemma category_representation (Category_str : Category → string) (c : Category) :
  serializer_data Category_str CategorySerializer (CategoryObj c)
  = Ok (<["name" := VStr (category_name c)]> (<["id" := VInt (category_id c)]> ∅)).
Proof. reflexivity. Qed.

Section CreateCategory.

Variable Category_str : Category → string.

Lemma category_post_valid (request_data validated_data : dict) (N : string)
    (st : Store) :
  is_valid CategorySerializer false request_data = Ok (Valid validated_data) →
  validated_data !! "name" = Some (VStr N) →
  CategoryCreateAPIView_post Category_str request_data st
  = match objects_get (filter (λ c, category_name c = N) (categories st)) with
    | Ok _ =>
        (Ok {| data := message "A category with the same name already exists.";
               status := HTTP_400_BAD_REQUEST |}, st)
    | Raise ObjectDoesNotExist =>
        (Ok {| data := One (<["name" := VStr N]>
                           (<["id" := VInt (next_category_id st)]> ∅));
               status := HTTP_201_CREATED |},
         (Category_objects_create N st).2)
    | Raise e => (Raise e, st)
    end.
Proof.
  intros Hvalid Hname.
  unfold CategoryCreateAPIView_post, mbind, action_bind, lift at 1.
  rewrite Hvalid. unfold lift at 1, getitem. rewrite Hname. simpl.
  unfold except_ObjectDoesNotExist, Category_objects_get_name.
  destruct (objects_get (filter (λ c, category_name c = N) (categories st)))
    as [c|e]; [reflexivity|].
  destruct e; reflexivity.
Qed.

End CreateCategory.

(** A create request under a name that one stored category has is answered
    400 with the duplicate message, and the store is unchanged. *)
Theorem create_category_duplicate (Category_str : Category → string)
    (request_data validated_data : dict) (N : string) (st : Store) (c : Category) :
  is_valid CategorySerializer false request_data = Ok (Valid validated_data) →
  validated_data !! "name" = Some (VStr N) →
  filter (λ c, category_name c = N) (categories st) = [c] →
  CategoryCreateAPIView_post Category_str request_data st
  = (Ok {| data := message "A category with the same name already exists.";
           status := HTTP_400_BAD_REQUEST |}, st).
Proof.
  intros Hvalid Hname Hrows.
  rewrite (category_post_valid _ _ _ _ _ Hvalid Hname), Hrows. reflexivity.
Qed.

Lemma create_category_duplicate_witness :
  CategoryCreateAPIView_post category_name {[ "name" := VStr "Kitchen" ]} shop
  = (Ok {| data := message "A category with the same name already exists.";
           status := HTTP_400_BAD_REQUEST |}, shop).
Proof.
  eapply (create_category_duplicate _ _ _ "Kitchen" shop kitchen); reflexivity.
Defined.

(** A create request under a name no stored category has is answered 201
    with the new category's id and name, and the category is appended to the
    store under the next identifier. *)
Theorem create_category_fresh (Category_str : Category → string)
    (request_data validated_data : dict) (N : string) (st : Store) :
  is_valid CategorySerializer false request_data = Ok (Valid validated_data) →
  validated_data !! "name" = Some (VStr N) →
  filter (λ c, category_name c = N) (categories st) = [] →
  CategoryCreateAPIView_post Category_str request_data st
  = (Ok {| data := One {[ "id" := VInt (next_category_id st); "name" := VStr N ]};
           status := HTTP_201_CREATED |},
     {| categories := categories st
                      ++ [{| category_id := next_category_id st; category_name := N |}];
        products := products st;
        next_category_id := next_category_id st + 1;
        next_product_id := next_product_id st |}).
Proof.
  intros Hvalid Hname Hrows.
  rewrite (category_post_valid _ _ _ _ _ Hvalid Hname), Hrows. simpl.
  reflexivity.
Qed.

Lemma create_category_fresh_witness :
  CategoryCreateAPIView_post category_name {[ "name" := VStr "Garden" ]} shop
  = (Ok {| data := One {[ "id" := VInt 2; "name" := VStr "Garden" ]};
           status := HTTP_201_CREATED |},
     {| categories := [kitchen; {| category_id := 2; category_name := "Garden" |}];
        products := [mug];
        next_category_id := 3;
        next_product_id := 2 |}).
Proof.
  eapply (create_category_fresh _ _ _ "Garden" shop); reflexivity.
Defined.

(** ** The request method is matched without regard to case *)

Lemma lower_char_idemp (c : ascii) : lower_char (lower_char c) = lower_char c.
Proof. destruct c as [[] [] [] [] [] [] [] []]; reflexivity. Qed.

Lemma lower_idemp (s : string) : lower (lower s) = lower s.
Proof.
  induction s as [|c s IH]; [reflexivity|].
  simpl. by rewrite lower_char_idemp, IH.
Qed.

Theorem detail_selection_ignores_case (request_method : string) :
  ProductDetailUpdateAPIView_get_serializer_class request_method
  = ProductDetailUpdateAPIView_get_serializer_class (lower request_method).
Proof.
  unfold ProductDetailUpdateAPIView_get_serializer_class.
  by rewrite lower_idemp.
Qed.

(** * How the framework's validation loop behaves *)

Section InternalValue.

Variable partial : bool.
Variable data : dict.

Lemma to_internal_value_step_ok (before : dict * dict) (f : Field) :
  to_internal_value_step partial data (Ok before) f
  = if read_only f then Ok before
    else match field_run_validation partial f (data !! field_name f) with
         | Validated v => Ok (<[source_key f := v]> before.1, before.2)
         | Skipped => Ok before
         | Failed msgs => Ok (before.1, <[field_name f := VList msgs]> before.2)
         | Unsupported => Raise (Unmodelled "a coercion of the framework")
         end.
Proof. reflexivity. Qed.

Lemma to_internal_value_raise (e : exn) (fields : list Field) :
  foldl (to_internal_value_step partial data) (Raise e) fields = Raise e.
Proof. induction fields as [|f fields IH]; [reflexivity|exact IH]. Qed.

(** The loop only ever adds field errors. *)
Lemma to_internal_value_errors_stay (fields : list Field) :
  ∀ before collected : dict * dict,
    foldl (to_internal_value_step partial data) (Ok before) fields = Ok collected →
    before.2 ≠ ∅ → collected.2 ≠ ∅.
Proof.
  induction fields as [|f fields IH]; intros before collected; cbn [foldl].
  - by intros [= <-].
  - rewrite to_internal_value_step_ok.
    destruct (read_only f); [apply IH|].
    destruct (field_run_validation partial f (data !! field_name f)).
    + intros Hfold Hne. exact (IH _ _ Hfold Hne).
    + apply IH.
    + intros Hfold _. apply (IH _ _ Hfold). simpl. apply insert_non_empty.
    + by rewrite to_internal_value_raise.
Qed.

(** An error recorded for a field stays under that field's name when no
    later writable field has the same name. *)
Lemma to_internal_value_error_kept (key : string) (v : value) (fields : list Field) :
  Forall (λ f, read_only f = true ∨ field_name f ≠ key) fields →
  ∀ before collected : dict * dict,
    foldl (to_internal_value_step partial data) (Ok before) fields = Ok collected →
    before.2 !! key = Some v → collected.2 !! key = Some v.
Proof.
  induction 1 as [|f fields Hf _ IH]; intros before collected; cbn [foldl].
  - by intros [= <-].
  - rewrite to_internal_value_step_ok.
    destruct Hf as [->|Hne]; [apply IH|].
    destruct (read_only f); [apply IH|].
    destruct (field_run_validation partial f (data !! field_name f)).
    + intros Hfold Hkey. exact (IH _ _ Hfold Hkey).
    + apply IH.
    + intros Hfold Hkey. apply (IH _ _ Hfold). simpl.
      by rewrite lookup_insert_ne.
    + by rewrite to_internal_value_raise.
Qed.

(** When the loop ends without field errors, its first writable field was
    validated or skipped, and the loop went on from there. *)
Lemma to_internal_value_clean_head (f : Field) (rest : list Field)
    (before : dict * dict) (ret : dict) :
  read_only f = false →
  foldl (to_internal_value_step partial data) (Ok before) (f :: rest) = Ok (ret, ∅) →
  match field_run_validation partial f (data !! field_name f) with
  | Validated v =>
      foldl (to_internal_value_step partial data)
            (Ok (<[source_key f := v]> before.1, before.2)) rest = Ok (ret, ∅)
  | Skipped =>
      foldl (to_internal_value_step partial data) (Ok before) rest = Ok (ret, ∅)
  | Failed _ | Unsupported => False
  end.
Proof.
  intros Hro. cbn [foldl]. rewrite to_internal_value_step_ok, Hro.
  destruct (field_run_validation partial f (data !! field_name f)) as [v| |msgs|].
  - auto.
  - auto.
  - intros Hfold. apply (to_internal_value_errors_stay _ _ _ Hfold); [|reflexivity].
    simpl. apply insert_non_empty.
  - by rewrite to_internal_value_raise.
Qed.

(** A failing writable field whose name no other writable field shares is
    reported under its name with its messages. *)
Lemma to_internal_value_reports (fields : list Field) (f : Field) (msgs : list string) :
  NoDup (map field_name fields) →
  f ∈ fields →
  read_only f = false →
  field_run_validation partial f (data !! field_name f) = Failed msgs →
  ∀ before collected : dict * dict,
    foldl (to_internal_value_step partial data) (Ok before) fields = Ok collected →
    collected.2 !! field_name f = Some (VList msgs).
Proof.
  intros Hnodup Hin Hro Hfailed.
  induction fields as [|g fields IH]; [by apply elem_of_nil in Hin|].
  apply NoDup_cons in Hnodup as [Hfresh Hnodup].
  intros before collected. cbn [foldl].
  apply elem_of_cons in Hin as [<-|Hin].
  - rewrite to_internal_value_step_ok, Hro, Hfailed.
    intros Hfold.
    apply (to_internal_value_error_kept (field_name f) (VList msgs) fields)
      with (before := (before.1, <[field_name f := VList msgs]> before.2));
      [|exact Hfold|apply lookup_insert_eq].
    apply Forall_forall. intros g Hg. right. intros Heq. apply Hfresh.
    rewrite <- Heq. apply list_elem_of_fmap. eauto.
  - destruct (to_internal_value_step partial data (Ok before) g) as [mid|e] eqn:Hstep.
    + by apply IH.
    + by rewrite to_internal_value_raise.
Qed.

End InternalValue.

(** ** What a validated field holds *)

Lemma to_internal_value_skip_read_only (partial : bool) (data : dict) (f : Field)
    (rest : list Field) (before : dict * dict) :
  read_only f = true →
  foldl (to_internal_value_step partial data) (Ok before) (f :: rest)
  = foldl (to_internal_value_step partial data) (Ok before) rest.
Proof.
  intros Hro. cbn [foldl]. by rewrite to_internal_value_step_ok, Hro.
Qed.

Lemma filter_nil_Forall {A} (P : A → Prop) `{∀ x, Decision (P x)} (l : list A) :
  filter P l = [] → Forall (λ x, ¬ P x) l.
Proof.
  induction l as [|x l IH]; [constructor|].
  rewrite filter_cons. case_decide; [discriminate|]. intros Hnil.
  constructor; [assumption|by apply IH].
Qed.

Lemma Forall_filter_nil {A} (P : A → Prop) `{∀ x, Decision (P x)} (l : list A) :
  Forall (λ x, ¬ P x) l → filter P l = [].
Proof.
  induction 1 as [|x l Hx _ IH]; [reflexivity|].
  rewrite filter_cons. by rewrite decide_False.
Qed.

(** When each validator of a character field is silent. *)
Lemma MaxLengthValidator_silent (n : nat) (value : string) :
  MaxLengthValidator (Some n) value = [] ↔ (len value ≤ n)%nat.
Proof.
  unfold MaxLengthValidator.
  destruct (Nat.ltb_spec n (len value)); split; intros; try done; lia.
Qed.

Lemma ProhibitNullCharactersValidator_silent (value : string) :
  ProhibitNullCharactersValidator value = [] ↔ 0%N ∉ code_points value.
Proof.
  unfold ProhibitNullCharactersValidator. case_bool_decide; split; intros; done.
Qed.

Lemma ProhibitSurrogateCharactersValidator_silent (value : string) :
  ProhibitSurrogateCharactersValidator value = []
  ↔ Forall (λ ch, is_surrogate ch = false) (code_points value).
Proof.
  unfold ProhibitSurrogateCharactersValidator.
  destruct (filter (λ ch, is_surrogate ch = true) (code_points value))
    as [|ch rest] eqn:Hfilter; split; intros H; try done.
  - apply filter_nil_Forall in Hfilter. eapply Forall_impl; [exact Hfilter|].
    intros ch Hch. simpl in Hch. by destruct (is_surrogate ch).
  - assert (Hnil : filter (λ ch, is_surrogate ch = true) (code_points value) = []).
    { apply Forall_filter_nil. eapply Forall_impl; [exact H|].
      intros c Hc. simpl in Hc. congruence. }
    congruence.
Qed.

(** What the checks of a character field come to: a blank text is refused
    at once; any other is validated as trimmed when every validator is
    silent, and refused with all their messages otherwise. *)
Lemma char_field_checks_cases (max_length : option nat) (s : string) :
  (strip s = "" ∧ char_field_checks max_length s = Failed ["This field may not be blank."])
  ∨ (strip s ≠ ""
     ∧ MaxLengthValidator max_length (strip s) = []
     ∧ ProhibitNullCharactersValidator (strip s) = []
     ∧ ProhibitSurrogateCharactersValidator (strip s) = []
     ∧ char_field_checks max_length s = Validated (VStr (strip s)))
  ∨ (strip s ≠ ""
     ∧ (MaxLengthValidator max_length (strip s)
        ++ ProhibitNullCharactersValidator (strip s)
        ++ ProhibitSurrogateCharactersValidator (strip s))%list ≠ []
     ∧ char_field_checks max_length s
       = Failed (MaxLengthValidator max_length (strip s)
                 ++ ProhibitNullCharactersValidator (strip s)
                 ++ ProhibitSurrogateCharactersValidator (strip s))%list).
Proof.
  unfold char_field_checks.
  destruct (String.eqb_spec (strip s) "") as [Hblank|Hblank]; [by left|right].
  destruct (MaxLengthValidator max_length (strip s)
            ++ ProhibitNullCharactersValidator (strip s)
            ++ ProhibitSurrogateCharactersValidator (strip s))%list
    as [|msg msgs] eqn:Herrors.
  - left. apply app_eq_nil in Herrors as [-> Herrors].
    apply app_eq_nil in Herrors as [-> ->]. done.
  - right. done.
Qed.

Lemma char_field_checks_validated (n : nat) (s : string) :
  match char_field_checks (Some n) s with
  | Validated v =>
      v = VStr (strip s) ∧ strip s ≠ "" ∧ (len (strip s) ≤ n)%nat
      ∧ (0%N ∉ code_points (strip s))
      ∧ Forall (λ ch, is_surrogate ch = false) (code_points (strip s))
  | Skipped | Unsupported => False
  | Failed _ => True
  end.
Proof.
  destruct (char_field_checks_cases (Some n) s)
    as [[_ ->]|[(Hblank & Hlength & Hnull & Hsurrogate & ->)|(_ & _ & ->)]];
    [exact I| |exact I].
  apply MaxLengthValidator_silent in Hlength.
  apply ProhibitNullCharactersValidator_silent in Hnull.
  apply ProhibitSurrogateCharactersValidator_silent in Hsurrogate.
  done.
Qed.

(** A required character field with a length bound, in a full (not partial)
    validation: what it validates is the supplied text trimmed, which is not
    blank, within the bound and free of null and surrogate characters; it is
    never skipped. *)
Lemma char_field_validated (key : string) (n : nat) (o : option value) :
  match field_run_validation false (declare key (CharField (Some n))) o with
  | Validated v => ∃ text, v = VStr text ∧ trimmed_text n o text
  | Skipped => False
  | Failed _ | Unsupported => True
  end.
Proof.
  destruct o as [[]|];
    cbn [field_run_validation field_to_internal_value field_kind declare];
    try exact I.
  - match goal with |- context [char_field_checks (Some n) ?s] =>
      pose proof (char_field_checks_validated n s) as Hchecks;
      destruct (char_field_checks (Some n) s) end; try done.
    destruct Hchecks as (-> & Hrest). eexists. split; [reflexivity|].
    eexists. split; [reflexivity|]. split; [reflexivity|exact Hrest].
  - match goal with |- context [char_field_checks (Some n) ?s] =>
      pose proof (char_field_checks_validated n s) as Hchecks;
      destruct (char_field_checks (Some n) s) end; try done.
    destruct Hchecks as (-> & Hrest). eexists. split; [reflexivity|].
    eexists. split; [reflexivity|]. split; [reflexivity|exact Hrest].
Qed.

Lemma float_field_validated (key : string) (o : option value) :
  match field_run_validation false (declare key FloatField) o with
  | Validated v => ∃ x, v = VFloat x
  | Skipped => False
  | Failed _ | Unsupported => True
  end.
Proof.
  destruct o as [[| |n| | |]|];
    cbn [field_run_validation field_to_internal_value field_kind declare];
    try exact I; eauto.
  destruct (Z.abs n <=? 2 ^ 53)%Z; [eauto|exact I].
Qed.

Lemma integer_field_validated (key : string) (o : option value) :
  match field_run_validation false (declare key IntegerField) o with
  | Validated v => ∃ n, v = VInt n
  | Skipped => False
  | Failed _ | Unsupported => True
  end.
Proof.
  destruct o as [[]|];
    cbn [field_run_validation field_to_internal_value field_kind declare];
    try exact I; eauto.
Qed.

(** An integer field with default 0: an absent key validates as 0. *)
Lemma integer_field_default_validated (key : string) (o : option value) :
  match field_run_validation false (with_default (VInt 0) (declare key IntegerField)) o with
  | Validated v => ∃ n, v = VInt n ∧ (o = None → n = 0%Z)
  | Skipped => False
  | Failed _ | Unsupported => True
  end.
Proof.
  destruct o as [[]|];
    cbn [field_run_validation field_to_internal_value field_kind declare
         with_default default_arg];
    try exact I.
  - eexists. split; [reflexivity|discriminate].
  - eexists. split; reflexivity.
Qed.

(** A boolean field with default true: an absent key validates as true. *)
Lemma boolean_field_default_validated (key : string) (o : option value) :
  match field_run_validation false
          (with_default (VBool true) (declare key BooleanField)) o with
  | Validated v => ∃ b, v = VBool b ∧ (o = None → b = true)
  | Skipped => False
  | Failed _ | Unsupported => True
  end.
Proof.
  destruct o as [[|b|n|x| |]|];
    cbn [field_run_validation field_to_internal_value field_kind declare
         with_default default_arg];
    try exact I.
  - eexists. split; [reflexivity|discriminate].
  - destruct (n =? 1)%Z; [eexists; split; [reflexivity|discriminate]|].
    destruct (n =? 0)%Z; [eexists; split; [reflexivity|discriminate]|exact I].
  - case_bool_decide; [eexists; split; [reflexivity|discriminate]|].
    case_bool_decide; [eexists; split; [reflexivity|discriminate]|exact I].
  - eexists. split; reflexivity.
Qed.

(** ** What passes the validation of a product *)

(** [is_valid] accepts exactly when the fields report no error and
    [validate] passes. *)
Lemma is_valid_product_clean (LOSS_FACTOR : Qc) (partial : bool)
    (data validated_data : dict) :
  is_valid (ProductSerializer LOSS_FACTOR) partial data = Ok (Valid validated_data) →
  to_internal_value partial ProductSerializer_fields data = Ok (validated_data, ∅)
  ∧ ProductSerializer_validate LOSS_FACTOR validated_data = Ok validated_data.
Proof.
  unfold is_valid. simpl fields. simpl validate.
  destruct (to_internal_value partial ProductSerializer_fields data)
    as [[value errors]|e]; [|discriminate]. simpl.
  case_bool_decide as Herrors; [|discriminate]. subst errors.
  destruct (ProductSerializer_validate LOSS_FACTOR value) as [value'|e] eqn:Hvalidate.
  - intros [= <-]. apply validate_returns_input in Hvalidate as Heq. subst value'.
    split; [reflexivity|exact Hvalidate].
  - destruct e as [| | | |[msgs|d]| | | | |]; discriminate.
Qed.

(** Whatever passes the validation of a create or full-update request is a
    record of exactly the seven writable fields, each of its declared type.
    The name and the category are the supplied texts with the white space
    at both ends removed: not blank, of at most 50 and 25 characters, and
    free of null and surrogate characters.  An absent discount is 0 and an
    absent available is true.  The record is the one [validate] was handed
    and returned.  Keys of the request that no writable field declares (id,
    the timestamps, anything else) are not in it. *)
Theorem valid_product_data (LOSS_FACTOR : Qc) (data validated_data : dict) :
  is_valid (ProductSerializer LOSS_FACTOR) false data = Ok (Valid validated_data) →
  ∃ (n c : string) (p cp : Qc) (q d : Z) (a : bool),
    validated_data
    = {[ "name" := VStr n; "category" := VStr c; "price" := VFloat p;
         "quantity" := VInt q; "discount" := VInt d; "available" := VBool a;
         "cost_price" := VFloat cp ]}
    ∧ trimmed_text 50 (data !! "name") n
    ∧ trimmed_text 25 (data !! "category") c
    ∧ (data !! "discount" = None → d = 0%Z)
    ∧ (data !! "available" = None → a = true)
    ∧ ProductSerializer_validate LOSS_FACTOR validated_data = Ok validated_data.
Proof.
  intros Hvalid. apply is_valid_product_clean in Hvalid as [Hfields Hrule].
  unfold to_internal_value, ProductSerializer_fields in Hfields.
  rewrite to_internal_value_skip_read_only in Hfields by reflexivity.
  apply to_internal_value_clean_head in Hfields; [|reflexivity].
  pose proof (char_field_validated "name" 50 (data !! "name")) as Hname.
  destruct (field_run_validation false (declare "name" (CharField (Some 50%nat))) _)
    as [v1| | |]; try done. destruct Hname as (n & -> & Hn).
  apply to_internal_value_clean_head in Hfields; [|reflexivity].
  pose proof (char_field_validated "category" 25 (data !! "category")) as Hcategory.
  destruct (field_run_validation false (declare "category" (CharField (Some 25%nat))) _)
    as [v2| | |]; try done. destruct Hcategory as (c & -> & Hc).
  apply to_internal_value_clean_head in Hfields; [|reflexivity].
  pose proof (float_field_validated "price" (data !! "price")) as Hprice.
  destruct (field_run_validation false (declare "price" FloatField) _)
    as [v3| | |]; try done. destruct Hprice as (p & ->).
  apply to_internal_value_clean_head in Hfields; [|reflexivity].
  pose proof (integer_field_validated "quantity" (data !! "quantity")) as Hquantity.
  destruct (field_run_validation false (declare "quantity" IntegerField) _)
    as [v4| | |]; try done. destruct Hquantity as (q & ->).
  apply to_internal_value_clean_head in Hfields; [|reflexivity].
  pose proof (integer_field_default_validated "discount" (data !! "discount"))
    as Hdiscount.
  destruct (field_run_validation false
              (with_default (VInt 0) (declare "discount" IntegerField)) _)
    as [v5| | |]; try done. destruct Hdiscount as (d & -> & Hd).
  apply to_internal_value_clean_head in Hfields; [|reflexivity].
  pose proof (boolean_field_default_validated "available" (data !! "available"))
    as Havailable.
  destruct (field_run_validation false
              (with_default (VBool true) (declare "available" BooleanField)) _)
    as [v6| | |]; try done. destruct Havailable as (a & -> & Ha).
  apply to_internal_value_clean_head in Hfields; [|reflexivity].
  pose proof (float_field_validated "cost_price" (data !! "cost_price")) as Hcost.
  destruct (field_run_validation false (declare "cost_price" FloatField) _)
    as [v7| | |]; try done. destruct Hcost as (cp & ->).
  rewrite !to_internal_value_skip_read_only in Hfields by reflexivity.
  injection Hfields as <-.
  exists n, c, p, cp, q, d, a.
  split; [reflexivity|]. repeat (split; [assumption|]). exact Hrule.
Qed.

(** A request for a cup whose name comes with white space around it, a
    no-break space included; no discount and no available are supplied. *)
Lemma valid_product_data_witness :
  ∃ (n c : string) (p cp : Qc) (q d : Z) (a : bool),
    {[ "name" := VStr "Café"; "category" := VStr "Kitchen";
       "price" := VFloat (Qc_of_Z 100); "quantity" := VInt 1;
       "discount" := VInt 0; "available" := VBool true;
       "cost_price" := VFloat (Qc_of_Z 100) ]}
    = ({[ "name" := VStr n; "category" := VStr c; "price" := VFloat p;
          "quantity" := VInt q; "discount" := VInt d; "available" := VBool a;
          "cost_price" := VFloat cp ]} : dict)
    ∧ trimmed_text 50 (cafe_request !! "name") n
    ∧ trimmed_text 25 (cafe_request !! "category") c
    ∧ (cafe_request !! "discount" = None → d = 0%Z)
    ∧ (cafe_request !! "available" = None → a = true)
    ∧ ProductSerializer_validate LOSS_FACTOR_example
        {[ "name" := VStr "Café"; "category" := VStr "Kitchen";
           "price" := VFloat (Qc_of_Z 100); "quantity" := VInt 1;
           "discount" := VInt 0; "available" := VBool true;
           "cost_price" := VFloat (Qc_of_Z 100) ]}
      = Ok {[ "name" := VStr "Café"; "category" := VStr "Kitchen";
              "price" := VFloat (Qc_of_Z 100); "quantity" := VInt 1;
              "discount" := VInt 0; "available" := VBool true;
              "cost_price" := VFloat (Qc_of_Z 100) ]}.
Proof.
  apply (valid_product_data LOSS_FACTOR_example cafe_request). reflexivity.
Defined.

(** ** Field errors reach the response *)

(** A writable field that fails is reported by [is_valid] under its name,
    whatever the other fields do. *)
Lemma is_valid_reports (s : Serializer) (partial : bool) (data : dict) (f : Field)
    (msgs : list string) (r : validation) :
  NoDup (map field_name (fields s)) →
  f ∈ fields s →
  read_only f = false →
  field_run_validation partial f (data !! field_name f) = Failed msgs →
  is_valid s partial data = Ok r →
  ∃ errors, r = Invalid errors ∧ errors !! field_name f = Some (VList msgs).
Proof.
  intros Hnodup Hin Hro Hfailed. unfold is_valid, to_internal_value.
  destruct (foldl (to_internal_value_step partial data) (Ok (∅, ∅)) (fields s))
    as [[value errors]|e] eqn:Hfold; [|discriminate]. simpl.
  pose proof (to_internal_value_reports partial data (fields s) f msgs
                Hnodup Hin Hro Hfailed _ _ Hfold) as Hreported. simpl in Hreported.
  rewrite bool_decide_eq_false_2.
  - intros [= <-]. eauto.
  - intros ->. by rewrite lookup_empty in Hreported.
Qed.

Lemma product_field_names_distinct (LOSS_FACTOR : Qc) :
  NoDup (map field_name (fields (ProductSerializer LOSS_FACTOR))).
Proof. apply (bool_decide_unpack _). reflexivity. Qed.

(** The report of a required product field [f] whose key the request lacks. *)
Ltac required_field f Hnone Hvalid :=
  refine (is_valid_reports _ _ _ f ["This field is required."] _
            (product_field_names_distinct _) _ eq_refl _ Hvalid);
  [ set_solver | simpl field_name; by rewrite Hnone ].

(** A create request that lacks one of the five fields without a default is
    answered 400, the response names that field with [This field is
    required.], and nothing is written: this holds whenever the view returns
    a response at all. *)
Theorem missing_required_field_reported (LOSS_FACTOR : Qc)
    (Category_str : Category → string) (now : datetime) (request_data : dict)
    (key : string) (st st' : Store) (response : Response) :
  key ∈ ["name"; "category"; "price"; "quantity"; "cost_price"] →
  request_data !! key = None →
  ProductCreateAPIView_post LOSS_FACTOR Category_str now request_data st
  = (Ok response, st') →
  ∃ errors : dict,
    response = {| data := One errors; status := HTTP_400_BAD_REQUEST |}
    ∧ errors !! key = Some (VList ["This field is required."])
    ∧ st' = st.
Proof.
  intros Hkey Hnone Hpost.
  destruct (is_valid (ProductSerializer LOSS_FACTOR) false request_data)
    as [r|e] eqn:Hvalid.
  - assert (Hreported : ∃ errors, r = Invalid errors
              ∧ errors !! key = Some (VList ["This field is required."])).
    { repeat (apply elem_of_cons in Hkey as [->|Hkey]);
        [..|by apply elem_of_nil in Hkey].
      - required_field (declare "name" (CharField (Some 50%nat))) Hnone Hvalid.
      - required_field (declare "category" (CharField (Some 25%nat))) Hnone Hvalid.
      - required_field (declare "price" FloatField) Hnone Hvalid.
      - required_field (declare "quantity" IntegerField) Hnone Hvalid.
      - required_field (declare "cost_price" FloatField) Hnone Hvalid. }
    destruct Hreported as (errors & -> & Herrors).
    rewrite (post_invalid_responds _ _ _ _ _ _ Hvalid) in Hpost.
    injection Hpost as <- <-. eauto.
  - unfold ProductCreateAPIView_post, mbind, action_bind, lift in Hpost.
    rewrite Hvalid in Hpost. discriminate.
Qed.

(** The cup request without its price. *)
Lemma missing_required_field_reported_witness :
  ProductCreateAPIView_post LOSS_FACTOR_example category_name noon
    (delete "price" cup_request) shop
  = (Ok {| data := One {[ "price" := VList ["This field is required."] ]};
           status := HTTP_400_BAD_REQUEST |}, shop)
  ∧ ∃ errors : dict,
      {| data := One {[ "price" := VList ["This field is required."] ]};
         status := HTTP_400_BAD_REQUEST |}
      = {| data := One errors; status := HTTP_400_BAD_REQUEST |}
      ∧ errors !! "price" = Some (VList ["This field is required."])
      ∧ shop = shop.
Proof.
  split; [reflexivity|].
  apply (missing_required_field_reported LOSS_FACTOR_example category_name noon
           (delete "price" cup_request) "price" shop shop).
  - set_solver.
  - reflexivity.
  - reflexivity.
Defined.

(** ** Discounts outside the percentage range *)




(** ** What an update may write *)

Lemma Product_get_object_inv (pk : Z) (st : Store) (r : result Product) (st' : Store) :
  Product_get_object pk st = (r, st') →
  st' = st ∧ (r = Raise Http404 ∨ ∃ instance, r = Ok instance ∧ id instance = pk).
Proof.
  unfold Product_get_object.
  destruct (filter (λ p, id p = pk) (products st)) as [|row rest] eqn:Hfilter;
    intros [= <- <-]; (split; [reflexivity|]); [by left|right].
  exists row. split; [reflexivity|].
  assert (Hin : row ∈ filter (λ p, id p = pk) (products st))
    by (rewrite Hfilter; left).
  by apply list_elem_of_filter in Hin as [Hin _].
Qed.

(** Assigning a validated entry never changes the identifier. *)
Lemma Product_setattr_id (p p' : Product) (attr : string) (v : value) :
  Product_setattr p attr v = Ok p' → id p' = id p.
Proof.
  unfold Product_setattr.
  destruct (attr =? "name")%string;
    [destruct v; simpl; try discriminate; by intros [= <-]|].
  destruct (attr =? "category")%string; [discriminate|].
  destruct (attr =? "price")%string;
    [destruct v; simpl; try discriminate; by intros [= <-]|].
  destruct (attr =? "quantity")%string;
    [destruct v; simpl; try discriminate; by intros [= <-]|].
  destruct (attr =? "discount")%string;
    [destruct v; simpl; try discriminate; by intros [= <-]|].
  destruct (attr =? "available")%string;
    [destruct v; simpl; try discriminate; by intros [= <-]|].
  destruct (attr =? "cost_price")%string;
    [destruct v; simpl; try discriminate; by intros [= <-]|].
  discriminate.
Qed.

Lemma setattrs_id (entries : list (string * value)) :
  ∀ p p', setattrs p entries = Ok p' → id p' = id p.
Proof.
  induction entries as [|[attr v] entries IH]; intros p p'; simpl.
  - by intros [= <-].
  - destruct (Product_setattr p attr v) as [mid|e] eqn:Hset; [|discriminate].
    simpl. intros Hrest. rewrite (IH _ _ Hrest). by eapply Product_setattr_id.
Qed.

Section UpdateProduct.

Variable LOSS_FACTOR : Qc.
Variable Category_str : Category → string.
Variable now : datetime.

(** The three ways [update_product] can end: an exception or the field
    errors with the store as it was, or status 200 after one save of the
    loaded instance with the validated entries assigned; the body is then the
    full representation of the saved row. *)
Lemma update_product_cases (request_method : string) (pk : Z) (request_data : dict)
    (partial : bool) (st : Store) :
  (∃ e, update_product LOSS_FACTOR Category_str now request_method pk request_data
          partial st = (Raise e, st))
  ∨ (∃ errors,
       update_product LOSS_FACTOR Category_str now request_method pk request_data
         partial st
       = (Ok {| data := One errors; status := HTTP_400_BAD_REQUEST |}, st))
  ∨ (∃ (loaded instance : Product) (body : dict),
       Product_get_object pk st = (Ok loaded, st)
       ∧ (∃ cls validated_data,
            ProductDetailUpdateAPIView_get_serializer_class request_method = Ok cls
            ∧ is_valid (get_serializer LOSS_FACTOR cls loaded) partial request_data
              = Ok (Valid validated_data)
            ∧ setattrs loaded
                (items (get_serializer LOSS_FACTOR cls loaded) validated_data)
              = Ok instance)
       ∧ id instance = id loaded
       ∧ id instance = pk
       ∧ to_representation Category_str (ProductSerializer LOSS_FACTOR)
           (ProductObj (touch now instance)) = Ok body
       ∧ update_product LOSS_FACTOR Category_str now request_method pk request_data
           partial st
         = (Ok {| data := One body; status := HTTP_200_OK |},
            (Product_save now instance st).2)).
Proof.
  unfold update_product, mbind, action_bind, lift.
  destruct (Product_get_object pk st) as [r st0] eqn:Hget.
  destruct (Product_get_object_inv _ _ _ _ Hget) as [-> [->|(loaded & -> & Hid)]];
    [left; eauto|].
  destruct (ProductDetailUpdateAPIView_get_serializer_class request_method)
    as [cls|e]; [|left; eauto].
  destruct (is_valid (get_serializer LOSS_FACTOR cls loaded) partial request_data)
    as [[validated_data|errors]|e] eqn:Hvalid; [|right; left; eauto|left; eauto].
  destruct (setattrs loaded
              (items (get_serializer LOSS_FACTOR cls loaded) validated_data))
    as [instance|e] eqn:Hset; [|left; eauto].
  right. right. exists loaded, instance. eexists.
  pose proof (setattrs_id _ _ _ Hset) as Hsame.
  split; [reflexivity|]. split; [by exists cls, validated_data|].
  split; [exact Hsame|]. split; [congruence|].
  unfold Product_save at 1. unfold serializer_data.
  rewrite full_representation. split; reflexivity.
Qed.

End UpdateProduct.

(** An update writes only when it answers 200: whenever [update_product]
    raises, or answers with the field errors, the store is exactly as it
    was. *)
Theorem update_product_writes_only_on_success (LOSS_FACTOR : Qc)
    (Category_str : Category → string) (now : datetime) (request_method : string)
    (pk : Z) (request_data : dict) (partial : bool) (st : Store) :
  (∃ body : dict,
     (update_product LOSS_FACTOR Category_str now request_method pk request_data
        partial st).1
     = Ok {| data := One body; status := HTTP_200_OK |})
  ∨ (update_product LOSS_FACTOR Category_str now request_method pk request_data
       partial st).2 = st.
Proof.
  destruct (update_product_cases LOSS_FACTOR Category_str now request_method pk
              request_data partial st)
    as [[e ->]|[[errors ->]|(loaded & instance & body & _ & _ & _ & _ & _ & ->)]].
  - by right.
  - by right.
  - left. by exists body.
Qed.

(** Whatever the request, an update never adds or removes a product, never
    changes an identifier, never touches a product other than the one
    requested, and never touches the categories or the identifier
    counters. *)
Theorem update_product_frame (LOSS_FACTOR : Qc)
    (Category_str : Category → string) (now : datetime) (request_method : string)
    (pk : Z) (request_data : dict) (partial : bool) (st : Store) :
  let st' := (update_product LOSS_FACTOR Category_str now request_method pk
                request_data partial st).2 in
  categories st' = categories st
  ∧ next_category_id st' = next_category_id st
  ∧ next_product_id st' = next_product_id st
  ∧ Forall2 (λ row row', id row' = id row ∧ (id row ≠ pk → row' = row))
            (products st) (products st').
Proof.
  assert (Hsame : Forall2 (λ row row', id row' = id row ∧ (id row ≠ pk → row' = row))
                          (products st) (products st)).
  { apply Forall_Forall2_diag, Forall_forall. intros row _. by split. }
  destruct (update_product_cases LOSS_FACTOR Category_str now request_method pk
              request_data partial st)
    as [[e ->]|[[errors ->]|(loaded & instance & body & _ & _ & _ & Hid & _ & ->)]];
    simpl.
  - by repeat (split; [reflexivity|]).
  - by repeat (split; [reflexivity|]).
  - repeat (split; [reflexivity|]).
    apply Forall2_fmap_r, Forall_Forall2_diag, Forall_forall. intros row _.
    unfold compose. case_bool_decide as Hrow.
    + split; [simpl; congruence|]. intros Hne. congruence.
    + by split.
Qed.

(** ** Categories: names, bounds and round trips *)

(** What the category serializer makes of a request whose name is a
    string. *)
Lemma category_is_valid (data : dict) (s : string) :
  data !! "name" = Some (VStr s) →
  is_valid CategorySerializer false data
  = match char_field_checks (Some 100%nat) s with
    | Validated v => Ok (Valid {[ "name" := v ]})
    | Failed msgs => Ok (Invalid {[ "name" := VList msgs ]})
    | Skipped => Ok (Valid ∅)
    | Unsupported => Raise (Unmodelled "a coercion of the framework")
    end.
Proof.
  intros Hname. unfold is_valid, to_internal_value. simpl fields.
  rewrite to_internal_value_skip_read_only by reflexivity.
  cbn [foldl]. rewrite to_internal_value_step_ok.
  cbn [read_only declare field_name]. rewrite Hname.
  cbn [field_run_validation field_to_internal_value field_kind declare].
  destruct (char_field_checks (Some 100%nat) s); reflexivity.
Qed.

Section CategoryViews.

Variable Category_str : Category → string.

(** The three ways [CategoryCreateAPIView.post] can end. *)
Lemma category_post_cases (request_data : dict) (st : Store) :
  (∃ e, CategoryCreateAPIView_post Category_str request_data st = (Raise e, st))
  ∨ (∃ body,
       CategoryCreateAPIView_post Category_str request_data st
       = (Ok {| data := body; status := HTTP_400_BAD_REQUEST |}, st))
  ∨ (∃ (validated_data : dict) (N : string),
       is_valid CategorySerializer false request_data = Ok (Valid validated_data)
       ∧ validated_data !! "name" = Some (VStr N)
       ∧ filter (λ c, category_name c = N) (categories st) = []
       ∧ CategoryCreateAPIView_post Category_str request_data st
         = (Ok {| data := One {[ "id" := VInt (next_category_id st);
                                 "name" := VStr N ]};
                  status := HTTP_201_CREATED |},
            (Category_objects_create N st).2)).
Proof.
  destruct (is_valid CategorySerializer false request_data)
    as [[validated_data|errors]|e] eqn:Hvalid.
  - destruct (validated_data !! "name") as [v|] eqn:Hname.
    + destruct v as [| | | |N|];
        try (left; eexists;
             unfold CategoryCreateAPIView_post, mbind, action_bind, lift, getitem;
             rewrite Hvalid, Hname; reflexivity).
      rewrite (category_post_valid _ _ _ _ _ Hvalid Hname).
      destruct (filter (λ c, category_name c = N) (categories st))
        as [|c [|c' rest]] eqn:Hrows; simpl.
      * right. right. exists validated_data, N. rewrite Hrows. eauto.
      * right. left. eauto.
      * left. eauto.
    + left. eexists.
      unfold CategoryCreateAPIView_post, mbind, action_bind, lift, getitem.
      rewrite Hvalid, Hname. reflexivity.
  - right. left. eexists.
    unfold CategoryCreateAPIView_post, mbind, action_bind, lift.
    rewrite Hvalid. reflexivity.
  - left. eexists.
    unfold CategoryCreateAPIView_post, mbind, action_bind, lift.
    rewrite Hvalid. reflexivity.
Qed.

End CategoryViews.

(** Creating categories keeps their names distinct: if no two stored
    categories share a name before a create request, none do after it,
    whatever the request. *)
Theorem category_names_stay_distinct (Category_str : Category → string)
    (request_data : dict) (st : Store) :
  NoDup (map category_name (categories st)) →
  NoDup (map category_name
           (categories (CategoryCreateAPIView_post Category_str request_data st).2)).
Proof.
  intros Hnodup.
  destruct (category_post_cases Category_str request_data st)
    as [[e ->]|[[body ->]|(validated_data & N & _ & _ & Hrows & ->)]];
    [exact Hnodup..|].
  simpl. rewrite map_app. apply NoDup_app. split; [exact Hnodup|]. split.
  - intros x Hx Hnew. apply list_elem_of_singleton in Hnew as ->.
    apply list_elem_of_fmap in Hx as (c & Hname & Hc).
    apply filter_nil_Forall in Hrows.
    by apply (proj1 (Forall_forall _ _) Hrows c Hc).
  - apply NoDup_singleton.
Qed.

Lemma category_names_stay_distinct_witness :
  NoDup (map category_name
           (categories (CategoryCreateAPIView_post category_name
                          {[ "name" := VStr "Garden" ]} shop).2)).
Proof.
  apply category_names_stay_distinct. simpl. apply NoDup_singleton.
Defined.

(** Creating the same category twice: when a create request is answered
    201, the same request against the resulting store is answered 400 with
    the duplicate message and writes nothing. *)
Theorem create_category_twice (Category_str : Category → string)
    (request_data : dict) (st st' : Store) (created : body) :
  CategoryCreateAPIView_post Category_str request_data st
  = (Ok {| data := created; status := HTTP_201_CREATED |}, st') →
  CategoryCreateAPIView_post Category_str request_data st'
  = (Ok {| data := message "A category with the same name already exists.";
           status := HTTP_400_BAD_REQUEST |}, st').
Proof.
  intros Hfirst.
  destruct (category_post_cases Category_str request_data st)
    as [[e He]|[[body' Hbody]|(validated_data & N & Hvalid & Hname & Hrows & Hpost)]].
  - rewrite He in Hfirst. discriminate.
  - rewrite Hbody in Hfirst. discriminate.
  - rewrite Hpost in Hfirst. injection Hfirst as _ <-.
    rewrite (category_post_valid _ _ _ _ _ Hvalid Hname). simpl.
    rewrite filter_app, Hrows. simpl. rewrite filter_cons, decide_True by reflexivity.
    reflexivity.
Qed.

Lemma create_category_twice_witness :
  CategoryCreateAPIView_post category_name {[ "name" := VStr "Garden" ]}
    (CategoryCreateAPIView_post category_name {[ "name" := VStr "Garden" ]} shop).2
  = (Ok {| data := message "A category with the same name already exists.";
           status := HTTP_400_BAD_REQUEST |},
     (CategoryCreateAPIView_post category_name {[ "name" := VStr "Garden" ]} shop).2).
Proof.
  eapply (create_category_twice category_name _ shop). reflexivity.
Defined.

(** The checks on a category name.  The name of a request is trimmed of
    the white space at both ends.  A blank name is answered 400 with the
    blank message; a name of more than 100 characters is answered 400 with
    the length message first; a name with a null character is answered 400
    with the null message among those reported; nothing is written in any
    of these cases.  Any other name without surrogate characters is valid
    as trimmed, 100 characters included. *)
Theorem category_name_checks (Category_str : Category → string)
    (request_data : dict) (s : string) (st : Store) :
  request_data !! "name" = Some (VStr s) →
  (strip s = "" →
   CategoryCreateAPIView_post Category_str request_data st
   = (Ok {| data := One {[ "name" := VList ["This field may not be blank."] ]};
            status := HTTP_400_BAD_REQUEST |}, st))
  ∧ (strip s ≠ "" → (100 < len (strip s))%nat →
     ∃ more : list string,
       CategoryCreateAPIView_post Category_str request_data st
       = (Ok {| data := One {[ "name" :=
                  VList ("Ensure this field has no more than 100 characters."
                         :: more) ]};
                status := HTTP_400_BAD_REQUEST |}, st))
  ∧ (strip s ≠ "" → 0%N ∈ code_points (strip s) →
     ∃ msgs : list string,
       "Null characters are not allowed." ∈ msgs
       ∧ CategoryCreateAPIView_post Category_str request_data st
         = (Ok {| data := One {[ "name" := VList msgs ]};
                  status := HTTP_400_BAD_REQUEST |}, st))
  ∧ (strip s ≠ "" → (len (strip s) ≤ 100)%nat →
     0%N ∉ code_points (strip s) →
     Forall (λ ch, is_surrogate ch = false) (code_points (strip s)) →
     is_valid CategorySerializer false request_data
     = Ok (Valid {[ "name" := VStr (strip s) ]})).
Proof.
  intros Hname. pose proof (category_is_valid request_data s Hname) as Hvalid.
  assert (Hrefused : ∀ msgs,
            char_field_checks (Some 100%nat) s = Failed msgs →
            CategoryCreateAPIView_post Category_str request_data st
            = (Ok {| data := One {[ "name" := VList msgs ]};
                     status := HTTP_400_BAD_REQUEST |}, st)).
  { intros msgs Hfailed. rewrite Hfailed in Hvalid.
    unfold CategoryCreateAPIView_post, mbind, action_bind, lift.
    rewrite Hvalid. reflexivity. }
  destruct (char_field_checks_cases (Some 100%nat) s)
    as [[Hblank Hchecks]|[(Hblank & Hlength & Hnull & Hsurrogate & Hchecks)
                         |(Hblank & Herrors & Hchecks)]].
  - split; [intros _; by apply Hrefused|]. repeat split; intros; contradiction.
  - apply MaxLengthValidator_silent in Hlength.
    apply ProhibitNullCharactersValidator_silent in Hnull.
    split; [intros; contradiction|]. split; [intros; lia|].
    split; [intros; contradiction|]. intros _ _ _ _.
    by rewrite Hchecks in Hvalid.
  - split; [intros; contradiction|]. split; [|split].
    + intros _ Hlong. eexists. rewrite (Hrefused _ Hchecks).
      unfold MaxLengthValidator. rewrite (proj2 (Nat.ltb_lt _ _) Hlong). reflexivity.
    + intros _ Hzero. eexists. split; [|exact (Hrefused _ Hchecks)].
      apply elem_of_app. right. apply elem_of_app. left.
      unfold ProhibitNullCharactersValidator.
      rewrite bool_decide_eq_true_2 by exact Hzero. apply list_elem_of_here.
    + intros _ Hshort Hzero Hclean. exfalso. apply Herrors.
      rewrite (proj2 (MaxLengthValidator_silent _ _) Hshort).
      rewrite (proj2 (ProhibitNullCharactersValidator_silent _) Hzero).
      by rewrite (proj2 (ProhibitSurrogateCharactersValidator_silent _) Hclean).
Qed.

(** A name with an accent, with a space before it and a no-break space and
    a space after it, is valid as its four characters. *)
Lemma category_name_checks_witness :
  is_valid CategorySerializer false {[ "name" := VStr " Café  " ]}
  = Ok (Valid {[ "name" := VStr "Café" ]}).
Proof.
  refine (proj2 (proj2 (proj2 (category_name_checks category_name
                          {[ "name" := VStr " Café  " ]} " Café  " shop _)))
            _ _ _ _).
  - reflexivity.
  - discriminate.
  - vm_compute. lia.
  - apply (bool_decide_unpack _). reflexivity.
  - apply (bool_decide_unpack _). reflexivity.
Defined.

(** A created category can be read back: in a store where no category has
    the next identifier yet, the detail view answers for the identifier a
    201 response reports with status 200 and the same representation. *)
Theorem created_category_can_be_retrieved (Category_str : Category → string)
    (request_data : dict) (st st' : Store) (created : dict) :
  Forall (λ c, category_id c ≠ next_category_id st) (categories st) →
  CategoryCreateAPIView_post Category_str request_data st
  = (Ok {| data := One created; status := HTTP_201_CREATED |}, st') →
  created !! "id" = Some (VInt (next_category_id st))
  ∧ CategoryDetailAPIView_get Category_str (next_category_id st) st'
    = (Ok {| data := One created; status := HTTP_200_OK |}, st').
Proof.
  intros Hfresh Hpost.
  destruct (category_post_cases Category_str request_data st)
    as [[e He]|[[body' Hbody]|(validated_data & N & _ & _ & _ & Hcreated)]].
  - rewrite He in Hpost. discriminate.
  - rewrite Hbody in Hpost. discriminate.
  - rewrite Hcreated in Hpost. injection Hpost as <- <-.
    split; [by simplify_map_eq|].
    unfold CategoryDetailAPIView_get, mbind, action_bind, lift, Category_get_object.
    simpl. rewrite filter_app, (Forall_filter_nil _ _ Hfresh). simpl.
    rewrite filter_cons, decide_True by reflexivity. reflexivity.
Qed.

Lemma created_category_can_be_retrieved_witness :
  ({[ "id" := VInt 2; "name" := VStr "Garden" ]} : dict) !! "id"
  = Some (VInt (next_category_id shop))
  ∧ CategoryDetailAPIView_get category_name (next_category_id shop)
      (CategoryCreateAPIView_post category_name {[ "name" := VStr "Garden" ]} shop).2
    = (Ok {| data := One {[ "id" := VInt 2; "name" := VStr "Garden" ]};
             status := HTTP_200_OK |},
       (CategoryCreateAPIView_post category_name {[ "name" := VStr "Garden" ]} shop).2).
Proof.
  apply (created_category_can_be_retrieved category_name
           {[ "name" := VStr "Garden" ]} shop).
  - repeat constructor. discriminate.
  - reflexivity.
Defined.

(** ** Deleting a product *)

Lemma filter_out_then_in (pk : Z) (rows : list Product) :
  filter (λ p, id p = pk) (filter (λ row, id row ≠ pk) rows) = [].
Proof.
  apply Forall_filter_nil, Forall_forall. intros row Hrow.
  by apply list_elem_of_filter in Hrow as [Hne _].
Qed.

(** Deleting a stored product answers 204 and removes exactly the rows with
    that identifier; afterwards every operation of the administrative view
    on that identifier (read, full or partial update, delete) raises
    [Http404] and leaves the store alone. *)
Theorem deleted_product_is_gone (LOSS_FACTOR : Qc)
    (Category_str : Category → string) (now : datetime) (pk : Z) (st : Store)
    (instance : Product) :
  Product_get_object pk st = (Ok instance, st) →
  ∃ st' : Store,
    ProductDetailUpdateAPIView_delete pk st
    = (Ok {| data := NoContent; status := HTTP_204_NO_CONTENT |}, st')
    ∧ products st' = filter (λ row, id row ≠ pk) (products st)
    ∧ categories st' = categories st
    ∧ ProductDetailUpdateAPIView_get LOSS_FACTOR Category_str pk st'
      = (Raise Http404, st')
    ∧ ProductDetailUpdateAPIView_delete pk st' = (Raise Http404, st')
    ∧ ∀ (request_method : string) (request_data : dict) (partial : bool),
        update_product LOSS_FACTOR Category_str now request_method pk request_data
          partial st'
        = (Raise Http404, st').
Proof.
  intros Hget.
  destruct (Product_get_object_inv _ _ _ _ Hget) as [_ [Hraise|(p & [= <-] & Hid)]];
    [discriminate|].
  eexists. split.
  { unfold ProductDetailUpdateAPIView_delete, mbind, action_bind.
    rewrite Hget. unfold Product_delete. simpl. rewrite Hid. reflexivity. }
  simpl. split; [reflexivity|]. split; [reflexivity|].
  assert (Hgone : ∀ st0 : Store,
            products st0 = filter (λ row, id row ≠ pk) (products st) →
            Product_get_object pk st0 = (Raise Http404, st0)).
  { intros st0 Hrows. unfold Product_get_object.
    by rewrite Hrows, filter_out_then_in. }
  repeat split.
  - unfold ProductDetailUpdateAPIView_get, mbind, action_bind.
    by rewrite Hgone.
  - unfold ProductDetailUpdateAPIView_delete, mbind, action_bind.
    by rewrite Hgone.
  - intros request_method request_data partial.
    unfold update_product, mbind, action_bind. by rewrite Hgone.
Qed.

Lemma deleted_product_is_gone_witness :
  ∃ st' : Store,
    ProductDetailUpdateAPIView_delete 1 shop
    = (Ok {| data := NoContent; status := HTTP_204_NO_CONTENT |}, st')
    ∧ products st' = filter (λ row, id row ≠ 1%Z) (products shop)
    ∧ categories st' = categories shop
    ∧ ProductDetailUpdateAPIView_get LOSS_FACTOR_example category_name 1 st'
      = (Raise Http404, st')
    ∧ ProductDetailUpdateAPIView_delete 1 st' = (Raise Http404, st')
    ∧ ∀ (request_method : string) (request_data : dict) (partial : bool),
        update_product LOSS_FACTOR_example category_name noon request_method 1
          request_data partial st'
        = (Raise Http404, st').
Proof.
  apply (deleted_product_is_gone LOSS_FACTOR_example category_name noon 1 shop mug).
  reflexivity.
Defined.

(** ** An update can be read back *)

(** What a successful update answers is what the administrative read
    answers next: after [update_product] has answered 200 with a body, a GET
    of the same identifier against the resulting store answers 200 with the
    same body and writes nothing. *)
Theorem update_then_get (LOSS_FACTOR : Qc) (Category_str : Category → string)
    (now : datetime) (request_method : string) (pk : Z) (request_data : dict)
    (partial : bool) (st st' : Store) (updated : dict) :
  update_product LOSS_FACTOR Category_str now request_method pk request_data
    partial st
  = (Ok {| data := One updated; status := HTTP_200_OK |}, st') →
  ProductDetailUpdateAPIView_get LOSS_FACTOR Category_str pk st'
  = (Ok {| data := One updated; status := HTTP_200_OK |}, st').
Proof.
  intros Hupdate.
  destruct (update_product_cases LOSS_FACTOR Category_str now request_method pk
              request_data partial st)
    as [[e He]|[[errors Herrors]|
        (loaded & instance & body & Hget & _ & Hid & _ & Hbody & Hsaved)]].
  - rewrite He in Hupdate. discriminate.
  - rewrite Herrors in Hupdate. discriminate.
  - pose proof (get_object_after_save now pk st loaded instance Hget Hid) as Hafter.
    rewrite Hsaved in Hupdate.
    set (saved := (Product_save now instance st).2) in *.
    injection Hupdate as <- <-.
    unfold ProductDetailUpdateAPIView_get, mbind, action_bind, lift.
    rewrite Hafter.
    replace (ProductDetailUpdateAPIView_get_serializer_class "GET")
      with (Ok ProductSerializer_cls : result serializer_class) by reflexivity.
    simpl class_of. unfold serializer_data. rewrite Hbody. reflexivity.
Qed.

Lemma update_then_get_witness :
  ∃ updated : dict,
    ProductDetailUpdateAPIView_patch LOSS_FACTOR_example category_name noon 1
      {[ "price" := VFloat (Qc_of_Z 12) ]} shop
    = (Ok {| data := One updated; status := HTTP_200_OK |},
       (ProductDetailUpdateAPIView_patch LOSS_FACTOR_example category_name noon 1
          {[ "price" := VFloat (Qc_of_Z 12) ]} shop).2)
    ∧ ProductDetailUpdateAPIView_get LOSS_FACTOR_example category_name 1
        (ProductDetailUpdateAPIView_patch LOSS_FACTOR_example category_name noon 1
           {[ "price" := VFloat (Qc_of_Z 12) ]} shop).2
      = (Ok {| data := One updated; status := HTTP_200_OK |},
         (ProductDetailUpdateAPIView_patch LOSS_FACTOR_example category_name noon 1
            {[ "price" := VFloat (Qc_of_Z 12) ]} shop).2).
Proof.
  eexists. split; [reflexivity|].
  eapply (update_then_get LOSS_FACTOR_example category_name noon "PATCH" 1
            {[ "price" := VFloat (Qc_of_Z 12) ]} true shop).
  reflexivity.
Defined.

(** ** A partial update leaves what it is not given *)

(** In a partial validation a key the request lacks is not validated: no
    default is filled in. *)
Lemma partial_absent_key (data : dict) (key : string) (fields : list Field) :
  Forall (λ f, read_only f = true ∨ source_key f ≠ key
               ∨ data !! field_name f = None) fields →
  ∀ (before collected : dict * dict),
    foldl (to_internal_value_step true data) (Ok before) fields = Ok collected →
    collected.1 !! key = before.1 !! key.
Proof.
  induction 1 as [|f fields Hf _ IH]; intros before collected; cbn [foldl].
  - by intros [= <-].
  - rewrite to_internal_value_step_ok.
    destruct (read_only f) eqn:Hro; [apply IH|].
    destruct Hf as [Hf|[Hne|Hnone]]; [discriminate| |].
    + destruct (field_run_validation true f (data !! field_name f)).
      * intros Hfold. rewrite (IH _ _ Hfold). simpl. by rewrite lookup_insert_ne.
      * apply IH.
      * intros Hfold. by rewrite (IH _ _ Hfold).
      * by rewrite to_internal_value_raise.
    + rewrite Hnone. simpl. apply IH.
Qed.

(** The entries of [validated_data.items()] are entries of the validated
    data. *)
Lemma items_lookup (s : Serializer) (validated_data : dict) (key : string) (v : value) :
  (key, v) ∈ items s validated_data → validated_data !! key = Some v.
Proof.
  unfold items. intros Hin. apply list_elem_of_omap in Hin as (f & _ & Hf).
  destruct (read_only f); [discriminate|].
  destruct (validated_data !! source_key f) as [v'|] eqn:Hlookup; [|discriminate].
  simpl in Hf. by injection Hf as <- <-.
Qed.

(** Assigning one attribute leaves every other attribute as it was. *)
Lemma Product_setattr_other (p p' : Product) (attr key : string) (v : value) :
  Product_setattr p attr v = Ok p' → key ≠ attr →
  getattr (ProductObj p') key = getattr (ProductObj p) key.
Proof.
  unfold Product_setattr. intros Hset Hne.
  repeat match type of Hset with
  | (if (attr =? ?a)%string then _ else _) = _ =>
      destruct (String.eqb_spec attr a) as [->|]
  end;
    try discriminate;
    destruct v; simpl in Hset; try discriminate; injection Hset as <-;
    unfold getattr;
    repeat match goal with
    | |- context [(key =? ?a)%string] =>
        destruct (String.eqb_spec key a) as [->|]; try reflexivity; try contradiction
    end.
Qed.

Lemma setattrs_other (key : string) (entries : list (string * value)) :
  key ∉ entries.*1 →
  ∀ p p', setattrs p entries = Ok p' →
    getattr (ProductObj p') key = getattr (ProductObj p) key.
Proof.
  induction entries as [|[attr v] entries IH]; intros Hkey p p'; cbn [setattrs].
  - by intros [= <-].
  - apply not_elem_of_cons in Hkey as [Hne Hkey].
    destruct (Product_setattr p attr v) as [mid|e] eqn:Hset; [|discriminate].
    cbn [mbind result_bind]. intros Hrest. rewrite (IH Hkey _ _ Hrest).
    by eapply Product_setattr_other.
Qed.

Lemma getattr_touch (now : datetime) (p : Product) (key : string) :
  key ≠ "updated_at" →
  getattr (ProductObj (touch now p)) key = getattr (ProductObj p) key.
Proof.
  intros Hne. unfold getattr.
  repeat match goal with
  | |- context [(key =? ?a)%string] =>
      destruct (String.eqb_spec key a) as [->|]; try reflexivity; try contradiction
  end.
Qed.

(** The partial serializer's [validate] hands back its input too. *)
Lemma partial_validate_returns_input (LOSS_FACTOR : Qc) (instance : option Product)
    (attrs value : dict) :
  ProductPartialUpdateSerializer_validate LOSS_FACTOR instance attrs = Ok value →
  value = attrs.
Proof.
  destruct instance as [existing|]; simpl; [|apply validate_returns_input].
  destruct (ProductSerializer_validate LOSS_FACTOR (resulting_triple existing attrs));
    simpl; [|discriminate].
  by intros [= <-].
Qed.

(** The serializer [update_product] binds is the full one or the partial
    one. *)
Lemma update_serializer_cases (request_method : string) (cls : serializer_class) :
  ProductDetailUpdateAPIView_get_serializer_class request_method = Ok cls →
  cls = ProductSerializer_cls ∨ cls = ProductPartialUpdateSerializer_cls.
Proof.
  intros Hcls.
  destruct (detail_selection_registered request_method) as (Hput & Hget & Hpatch).
  destruct (decide (lower request_method = "put")) as [Hm|Hnput];
    [rewrite (Hput Hm) in Hcls; injection Hcls as <-; by left|].
  destruct (decide (lower request_method = "get")) as [Hm|Hnget];
    [rewrite (Hget Hm) in Hcls; injection Hcls as <-; by left|].
  destruct (decide (lower request_method = "patch")) as [Hm|Hnpatch];
    [rewrite (Hpatch Hm) in Hcls; injection Hcls as <-; by right|].
  by rewrite detail_selection_unregistered in Hcls.
Qed.

(** Both serializers of the administrative view store each validated field
    under the field's own name, and their [validate] returns the validated
    input or raises. *)
Lemma update_serializer_fields (LOSS_FACTOR : Qc) (request_method : string)
    (cls : serializer_class) (loaded : Product) :
  ProductDetailUpdateAPIView_get_serializer_class request_method = Ok cls →
  Forall (λ f, source_key f = field_name f)
         (fields (get_serializer LOSS_FACTOR cls loaded))
  ∧ ∀ attrs value,
      validate (get_serializer LOSS_FACTOR cls loaded) attrs = Ok value →
      value = attrs.
Proof.
  intros Hcls.
  destruct (update_serializer_cases _ _ Hcls) as [-> | ->]; split;
    try (repeat (constructor; [reflexivity|]); constructor).
  - apply validate_returns_input.
  - apply partial_validate_returns_input.
Qed.

(** A partial update leaves what the request does not supply: after
    [update_product] has answered 200 in partial mode, the stored row has the
    new modification time, and every other attribute whose key is absent from
    the request data is as it was in the row that was loaded. *)
Theorem partial_update_keeps_unsupplied (LOSS_FACTOR : Qc)
    (Category_str : Category → string) (now : datetime) (request_method : string)
    (pk : Z) (request_data : dict) (st st' : Store) (loaded : Product)
    (updated : dict) :
  Product_get_object pk st = (Ok loaded, st) →
  update_product LOSS_FACTOR Category_str now request_method pk request_data
    true st
  = (Ok {| data := One updated; status := HTTP_200_OK |}, st') →
  ∃ saved : Product,
    Product_get_object pk st' = (Ok saved, st')
    ∧ updated_at saved = now
    ∧ ∀ key : string,
        request_data !! key = None → key ≠ "updated_at" →
        getattr (ProductObj saved) key = getattr (ProductObj loaded) key.
Proof.
  intros Hloaded Hupdate.
  destruct (update_product_cases LOSS_FACTOR Category_str now request_method pk
              request_data true st)
    as [[e He]|[[errors Herrors]|
        (loaded' & instance & body & Hget & (cls & validated_data & Hcls & Hvalid & Hset)
         & Hid & _ & _ & Hsaved)]].
  - rewrite He in Hupdate. discriminate.
  - rewrite Herrors in Hupdate. discriminate.
  - rewrite Hloaded in Hget. injection Hget as <-.
    pose proof (get_object_after_save now pk st loaded instance Hloaded Hid) as Hafter.
    rewrite Hsaved in Hupdate.
    set (saved := (Product_save now instance st).2) in *.
    injection Hupdate as _ <-.
    exists (touch now instance). split; [exact Hafter|]. split; [reflexivity|].
    intros key Hnone Hne. rewrite getattr_touch by exact Hne.
    refine (setattrs_other key _ _ loaded instance Hset).
    intros Hin. apply list_elem_of_fmap in Hin as ([k v] & -> & Hin). simpl in *.
    apply items_lookup in Hin.
    destruct (update_serializer_fields LOSS_FACTOR _ _ loaded Hcls)
      as [Hnames Hvalidate].
    unfold is_valid, to_internal_value in Hvalid.
    destruct (foldl (to_internal_value_step true request_data) (Ok (∅, ∅))
                (fields (get_serializer LOSS_FACTOR cls loaded)))
      as [[value errs]|e] eqn:Hfold; [|discriminate]. simpl in Hvalid.
    case_bool_decide; [|discriminate].
    destruct (validate (get_serializer LOSS_FACTOR cls loaded) value)
      as [value'|e] eqn:Hrule.
    + injection Hvalid as ->. apply Hvalidate in Hrule as ->.
      apply (partial_absent_key request_data k) in Hfold.
      * simpl in Hfold. rewrite Hin, lookup_empty in Hfold. discriminate.
      * eapply Forall_impl; [exact Hnames|]. intros f Hf. simpl in Hf.
        destruct (decide (source_key f = k)) as [Hk|Hk]; [|by right; left].
        right. right. rewrite <- Hf, Hk. exact Hnone.
    + destruct e as [| | | |[msgs|d]| | | | |]; discriminate.
Qed.

(** A PATCH of the mug's price alone: its name is as stored. *)
Lemma partial_update_keeps_unsupplied_witness :
  ∃ saved : Product,
    Product_get_object 1
      (ProductDetailUpdateAPIView_patch LOSS_FACTOR_example category_name noon 1
         {[ "price" := VFloat (Qc_of_Z 12) ]} shop).2
    = (Ok saved,
       (ProductDetailUpdateAPIView_patch LOSS_FACTOR_example category_name noon 1
          {[ "price" := VFloat (Qc_of_Z 12) ]} shop).2)
    ∧ updated_at saved = noon
    ∧ ∀ key : string,
        ({[ "price" := VFloat (Qc_of_Z 12) ]} : dict) !! key = None →
        key ≠ "updated_at" →
        getattr (ProductObj saved) key = getattr (ProductObj mug) key.
Proof.
  eapply (partial_update_keeps_unsupplied LOSS_FACTOR_example category_name noon
            "PATCH" 1 {[ "price" := VFloat (Qc_of_Z 12) ]} shop _ mug).
  - reflexivity.
  - reflexivity.
Defined.

(** ** A partial update checks the resulting triple *)






Section ResultingTriple.

Variable LOSS_FACTOR : Qc.
Variable loaded : Product.

Local Abbreviation bound := (ProductPartialUpdateSerializer LOSS_FACTOR (Some loaded)).





End ResultingTriple.


